(** * FF Calc PRO: the pricing and packing engine of [bot_pro.py]

    The engine of the bot is a handful of pure functions over Python
    [float]s and [int]s: [vol], [boxes_per_pallet_by_volume],
    [calculate_boxes_for_item], [party_palletization],
    [party_shipping_cost], [compute_sku_cost] and the totals loop of
    [format_report].  They are embedded here one for one.

    - A Python [float] is a binary64 number: Rocq's primitive [float],
      whose [+], [*], [/] and comparisons are the IEEE 754 ones Python
      uses.
    - A Python [int] is unbounded: [Z].
    - An exception is a value of [exn]; a function that can raise returns
      a [result].
    - The module-level dictionaries [SERVICES], [FF_WAREHOUSES],
      [TK_WAREHOUSES] and [CONST] are finite maps keyed by strings.

    Arithmetic that raises in Python ([math.ceil] and [math.floor] of NaN
    or of an infinity, an [int] too large for a [float]) raises here too.
    A formula of the specification is read with the same arithmetic, so
    that a theorem states the result of the code exactly: the value when
    the arithmetic goes through, the exception when it does not. *)

From Stdlib Require Import ZArith List Lia Floats Permutation.
From stdpp Require Import base option gmap strings sorting.

Set Warnings "-inexact-float".

(** ** Exceptions and results *)

(** The two [RuntimeError]s of [party_shipping_cost], told apart by their
    message. *)
Inductive runtime_msg : Set :=
  | NoRateToWarehouse   (* "Лист TK: нет ставки до склада (ни за короб, ни за паллету) ..." *)
  | WarehouseNotFound.  (* "Склад не найден ни на листе TK, ни на листе FF." *)

Inductive exn : Set :=
  | ValueError
  | OverflowError
  | ZeroDivisionError
  | RuntimeError (msg : runtime_msg).

Inductive result (A : Type) : Type :=
  | Ok (a : A)
  | Raise (e : exn).
Arguments Ok {A} a.
Arguments Raise {A} e.

#[global] Instance result_ret : MRet result := fun A a => Ok a.
#[global] Instance result_bind : MBind result := fun A B k r =>
  match r with
  | Ok a => k a
  | Raise e => Raise e
  end.

Definition is_ok {A} (r : result A) : bool :=
  match r with Ok _ => true | Raise _ => false end.

(** ** Python arithmetic on [int] and [float] *)

Module Py.

(** The integer value [±m] of a sign and a mantissa. *)
Definition signed (s : bool) (m : positive) : Z :=
  if s then Z.neg m else Z.pos m.

(** [float(n)] for an [int] [n], also the conversion Python applies to
    the [int] operand of [n * x]: the nearest binary64 value, ties to
    even; [OverflowError] when that is out of range. *)
Definition float_of_int (n : Z) : result float :=
  let f := SF2Prim (binary_normalize prec emax n 0 false) in
  if PrimFloat.is_infinity f then Raise OverflowError else Ok f.

(** [n * x] with [n : int] and [x : float]. *)
Definition int_mul_float (n : Z) (x : float) : result float :=
  f ← float_of_int n; Ok (f * x)%float.

(** [n < x] with [n : int] and [x : float]: Python compares the two
    exactly; every comparison with NaN is false. *)
Definition int_lt_float (n : Z) (x : float) : bool :=
  match Prim2SF x with
  | S754_nan => false
  | S754_infinity s => negb s
  | S754_zero _ => (n <? 0)%Z
  | S754_finite s m e =>
      if (0 <=? e)%Z then (n <? signed s m * 2 ^ e)%Z
      else (n * 2 ^ (- e) <? signed s m)%Z
  end.

(** [n / m] with both [int]: true division, the exact quotient rounded
    once to binary64. *)
Definition int_truediv (n m : Z) : result float :=
  if (m =? 0)%Z then Raise ZeroDivisionError
  else if (n =? 0)%Z then Ok 0%float
  else
    let s := xorb (n <? 0)%Z (m <? 0)%Z in
    let '(q, e, l) := SFdiv_core_binary prec emax (Z.abs n) 0 (Z.abs m) 0 in
    let f := SF2Prim (binary_round_aux prec emax s q e l) in
    if PrimFloat.is_infinity f then Raise OverflowError else Ok f.

(** [x / y] with both [float]: IEEE division, except that Python raises
    on a zero divisor. *)
Definition float_truediv (x y : float) : result float :=
  if (y =? 0)%float then Raise ZeroDivisionError else Ok (x / y)%float.

(** [math.floor(x)] and [math.ceil(x)]: an [int]; [ValueError] on NaN
    and [OverflowError] on an infinity. *)
Definition math_floor (x : float) : result Z :=
  match Prim2SF x with
  | S754_nan => Raise ValueError
  | S754_infinity _ => Raise OverflowError
  | S754_zero _ => Ok 0%Z
  | S754_finite s m e =>
      Ok (if (0 <=? e)%Z then signed s m * 2 ^ e
          else signed s m / 2 ^ (- e))%Z
  end.

Definition math_ceil (x : float) : result Z :=
  match Prim2SF x with
  | S754_nan => Raise ValueError
  | S754_infinity _ => Raise OverflowError
  | S754_zero _ => Ok 0%Z
  | S754_finite s m e =>
      Ok (if (0 <=? e)%Z then signed s m * 2 ^ e
          else - ((- signed s m) / 2 ^ (- e)))%Z
  end.

(** [x or 0.0] for [x] a [float] or [None]: [0.0] when [x] is [None] or
    zero, [x] otherwise. *)
Definition or_zero (x : option float) : float :=
  match x with
  | None => 0%float
  | Some f => if (f =? 0)%float then 0%float else f
  end.

End Py.

(** ** Constants *)

Definition dims : Type := float * float * float.

Definition BOX_PRICE : float := 110%float.
Definition BASE_PALLET_BOX : dims := (60, 40, 40)%float.
Definition BASE_BOXES_PER_PALLET : Z := 16.

(** ** Geometry and packing *)

Definition vol (d : dims) : float :=
  let '(d0, d1, d2) := d in (d0 * d1 * d2)%float.

Definition boxes_per_pallet_by_volume (box_dims : dims) : result Z :=
  pallet_volume ← Py.int_mul_float BASE_BOXES_PER_PALLET (vol BASE_PALLET_BOX);
  let box_volume := vol box_dims in
  if (box_volume <=? 0)%float then Ok BASE_BOXES_PER_PALLET
  else
    q ← Py.float_truediv pallet_volume box_volume;
    m ← Py.math_floor q;
    Ok (Z.max 1 m).

Definition calculate_boxes_for_item (qty : float) (item_dims box_dims : dims)
  : result (Z * bool * float) :=
  let '(l, w, h) := item_dims in
  let '(bl, bw, bh) := box_dims in
  let is_oversize := (bl <? l)%float || (bw <? w)%float || (bh <? h)%float in
  if is_oversize then
    c ← Py.math_ceil qty; Ok (c, true, 1%float)
  else
    let item_volume := vol item_dims in
    let box_volume := vol box_dims in
    items_per_box ←
      (if (item_volume <=? 0)%float then Ok 1%float
       else
         r ← Py.float_truediv box_volume item_volume;
         Ok (if (r <? 1)%float then 1%float else r));
    q ← Py.float_truediv qty items_per_box;
    boxes ← Py.math_ceil q;
    Ok (boxes, false, items_per_box).

(** ** The catalog *)

(** A value of [SERVICES]: the tuple [(name, price, category, unit)]. *)
Definition service : Type := string * float * string * string.

(** The category string of consumables; every other category is labour. *)
Definition CAT_CONSUMABLES : string := "расходники".

(** A value of [FF_WAREHOUSES]: the dict [{"ship_per_box": price}]. *)
Record ff_rate : Type := FfRate {
  ship_per_box : float
}.

(** A value of [TK_WAREHOUSES]; [None] is Python's [None] (for [entry_fee]
    also a missing key, which [tk.get] reads as [None]). *)
Record tk_rate : Type := TkRate {
  to_warehouse_per_box : option float;
  to_warehouse_per_pallet : option float;
  entry_fee : option float
}.

(** One SKU of a party, the dict built by the dialogue. *)
Record sku : Type := Sku {
  name : string;
  qty : float;
  dimensions : dims;
  services_names : list string
}.

(** A row of [work_items] / [cons_items]. *)
Record service_row : Type := Row {
  row_name : string;
  row_price : float;
  row_unit : string;
  row_cat : string
}.

(** The dict returned by [compute_sku_cost]. *)
Record sku_calc : Type := SkuCalc {
  calc_qty : float;
  item_dims : dims;
  boxes : Z;
  items_per_box : float;
  is_oversize : bool;
  work_items : list service_row;
  cons_items : list service_row;
  work_per_unit : float;
  cons_per_unit : float;
  work_total : float;
  cons_total : float;
  boxes_cost : float;
  sku_total_no_ship : float
}.

(** The [data] dict read by [format_report]. *)
Record party : Type := Party {
  skus : list sku;
  warehouse : string;
  use_client_boxes : bool;
  box_dims : dims
}.

(** What [format_report] computes before it renders text. *)
Record party_totals : Type := PartyTotals {
  sku_calcs : list sku_calc;
  total_sum_no_ship : float;
  total_boxes : Z;
  pallets : Z;
  max_on_pallet : Z;
  pallet_cost : float;
  stretch_cost : float;
  ship_type : string;
  ship_cost : float;
  party_total : float
}.

Section Engine.

Variable SERVICES : gmap string service.
Variable FF_WAREHOUSES : gmap string ff_rate.
Variable TK_WAREHOUSES : gmap string tk_rate.
Variable CONST : gmap string float.

(** [CONST.get(key, dflt)] *)
Definition CONST_get (key : string) (dflt : float) : float :=
  default dflt (CONST !! key).

Definition party_palletization (total_boxes : Z) (box_dims : dims)
  : result (Z * Z * float * float) :=
  let threshold := CONST_get "PALLET_THRESHOLD_BOXES" 10%float in
  let pallet_price := CONST_get "PALLET" 0%float in
  let stretch_price := CONST_get "STRETCH" 0%float in
  max_on_pallet ← boxes_per_pallet_by_volume box_dims;
  if Py.int_lt_float total_boxes threshold then
    Ok (0%Z, max_on_pallet, 0%float, 0%float)
  else
    q ← Py.int_truediv total_boxes max_on_pallet;
    pallets ← Py.math_ceil q;
    pallet_cost ← Py.int_mul_float pallets pallet_price;
    stretch_cost ← Py.int_mul_float pallets stretch_price;
    Ok (pallets, max_on_pallet, pallet_cost, stretch_cost).

(** The returned pair is [(ship_type, cost)]; the third component of the
    Python tuple, the text [details], is rendering only. *)
Definition party_shipping_cost (warehouse_name : string)
    (total_boxes pallets : Z) : result (string * float) :=
  match TK_WAREHOUSES !! warehouse_name with
  | Some tk =>
      let to_tk_per_box := CONST_get "TO_TK_PER_BOX" 100%float in
      to_tk ← Py.int_mul_float total_boxes to_tk_per_box;
      let entry := Py.or_zero (entry_fee tk) in
      to_wh ←
        match (0 <? pallets)%Z, to_warehouse_per_pallet tk with
        | true, Some rate_p => Py.int_mul_float pallets rate_p
        | _, _ =>
            match to_warehouse_per_box tk with
            | None => Raise (RuntimeError NoRateToWarehouse)
            | Some rate_b => Py.int_mul_float total_boxes rate_b
            end
        end;
      Ok ("tk", (to_tk + to_wh + entry)%float)
  | None =>
      match FF_WAREHOUSES !! warehouse_name with
      | None => Raise (RuntimeError WarehouseNotFound)
      | Some r =>
          cost ← Py.int_mul_float total_boxes (ship_per_box r);
          Ok ("ff", cost)
      end
  end.

(** The loop of [compute_sku_cost] over [sku["services_names"]]; the
    state is [(work_items, cons_items, work_per_unit, cons_per_unit)]. *)
Definition services_step
    (acc : list service_row * list service_row * float * float)
    (svc_name : string)
  : list service_row * list service_row * float * float :=
  let '(work_items, cons_items, work_per_unit, cons_per_unit) := acc in
  match SERVICES !! svc_name with
  | None => acc
  | Some (name, price, cat, unit) =>
      let row := Row name price unit cat in
      if bool_decide (cat = CAT_CONSUMABLES) then
        (work_items, cons_items ++ [row], work_per_unit, (cons_per_unit + price)%float)
      else
        (work_items ++ [row], cons_items, (work_per_unit + price)%float, cons_per_unit)
  end.

Definition compute_sku_cost (s : sku) (box_dims : dims)
    (use_client_boxes : bool) : result sku_calc :=
  let qty := qty s in
  let item_dims := dimensions s in
  '(boxes, is_oversize, items_per_box) ←
    calculate_boxes_for_item qty item_dims box_dims;
  let '(work_items, cons_items, work_per_unit, cons_per_unit) :=
    fold_left services_step (services_names s) ([], [], 0%float, 0%float) in
  let work_total := (work_per_unit * qty)%float in
  let cons_total := (cons_per_unit * qty)%float in
  boxes_cost ←
    (if negb use_client_boxes && negb is_oversize then
       f ← Py.float_of_int boxes; Ok (f * BOX_PRICE)%float
     else Ok 0%float);
  Ok {| calc_qty := qty;
        item_dims := item_dims;
        boxes := boxes;
        items_per_box := items_per_box;
        is_oversize := is_oversize;
        work_items := work_items;
        cons_items := cons_items;
        work_per_unit := work_per_unit;
        cons_per_unit := cons_per_unit;
        work_total := work_total;
        cons_total := cons_total;
        boxes_cost := boxes_cost;
        sku_total_no_ship := (work_total + cons_total + boxes_cost)%float |}.

(** The first loop of [format_report]: the state is
    [(sku_calcs, total_sum_no_ship, total_boxes)]. *)
Fixpoint sku_loop (box_dims : dims) (use_client_boxes : bool)
    (l : list sku) (acc : list sku_calc * float * Z)
  : result (list sku_calc * float * Z) :=
  match l with
  | [] => Ok acc
  | s :: l' =>
      let '(sku_calcs, total_sum_no_ship, total_boxes) := acc in
      calc ← compute_sku_cost s box_dims use_client_boxes;
      sku_loop box_dims use_client_boxes l'
        (sku_calcs ++ [calc],
         (total_sum_no_ship + sku_total_no_ship calc)%float,
         (total_boxes + boxes calc)%Z)
  end.

(** [format_report] up to and including [party_total]: everything the
    report text is rendered from. *)
Definition format_report (data : party) : result party_totals :=
  '(sku_calcs, total_sum_no_ship, total_boxes) ←
    sku_loop (box_dims data) (use_client_boxes data) (skus data)
      ([], 0%float, 0%Z);
  '(pallets, max_on_pallet, pallet_cost, stretch_cost) ←
    party_palletization total_boxes (box_dims data);
  '(ship_type, ship_cost) ←
    party_shipping_cost (warehouse data) total_boxes pallets;
  Ok {| sku_calcs := sku_calcs;
        total_sum_no_ship := total_sum_no_ship;
        total_boxes := total_boxes;
        pallets := pallets;
        max_on_pallet := max_on_pallet;
        pallet_cost := pallet_cost;
        stretch_cost := stretch_cost;
        ship_type := ship_type;
        ship_cost := ship_cost;
        party_total :=
          (total_sum_no_ship + pallet_cost + stretch_cost + ship_cost)%float |}.

End Engine.

(** ** The formulas the specification states *)

(** Python's [max(a, b)] on two numbers: [b] when [b > a], else [a]. *)
Definition float_max (a b : float) : float :=
  if (a <? b)%float then b else a.

(** "If the ratio is below 1, clamp to 1." *)
Definition clamp_one (r : float) : float :=
  if (r <? 1)%float then 1%float else r.

(** All three components are positive. *)
Definition positive_dims (d : dims) : bool :=
  let '(l, w, h) := d in (0 <? l)%float && (0 <? w)%float && (0 <? h)%float.

(** "Any of length/width/height of the item exceeds the corresponding
    carton dimension." *)
Definition exceeds (item box : dims) : bool :=
  let '(l, w, h) := item in
  let '(bl, bw, bh) := box in
  (bl <? l)%float || (bw <? w)%float || (bh <? h)%float.

(** [max(1, floor(16 × volume(60,40,40) / volume(cartonDims)))] *)
Definition pallet_capacity_formula (carton : dims) : result Z :=
  q ← Py.float_truediv (16 * vol (60, 40, 40))%float (vol carton);
  m ← Py.math_floor q;
  Ok (Z.max 1 m).

(** [itemsPerBox]: 1 for an item of volume zero or less, else the ratio
    of the volumes clamped up to 1. *)
Definition items_per_box_formula (item box : dims) : result float :=
  if (vol item <=? 0)%float then Ok 1%float
  else r ← Py.float_truediv (vol box) (vol item); Ok (clamp_one r).

(** [ceil(qty / itemsPerBox)] *)
Definition box_count_formula (qty items_per_box : float) : result Z :=
  q ← Py.float_truediv qty items_per_box; Py.math_ceil q.

(** [boxCount × fixedCartonUnitPrice], or nothing for customer-supplied
    cartons and for oversize items. *)
Definition carton_cost_formula (use_client_boxes oversize : bool) (box_count : Z)
  : result float :=
  if use_client_boxes || oversize then Ok 0%float
  else Py.int_mul_float box_count BOX_PRICE.

Definition service_price (sv : service) : float :=
  let '(_, price, _, _) := sv in price.

Definition service_is_consumable (sv : service) : bool :=
  let '(_, _, cat, _) := sv in bool_decide (cat = CAT_CONSUMABLES).

Definition service_to_row (sv : service) : service_row :=
  let '(name, price, cat, unit) := sv in Row name price unit cat.

(** The selected services the catalog knows, in selection order; a name
    the catalog lacks contributes nothing. *)
Definition matched (SERVICES : gmap string service) (names : list string)
  : list service :=
  omap (fun n => SERVICES !! n) names.

(** The matched services of one category: the consumables when
    [consumable] is [true], the labour otherwise. *)
Definition of_category (SERVICES : gmap string service) (consumable : bool)
    (names : list string) : list service :=
  List.filter (fun sv => Bool.eqb (service_is_consumable sv) consumable)
    (matched SERVICES names).

(** The sum of a list of floats as Python accumulates it: from [start],
    left to right. *)
Definition float_sum (start : float) (l : list float) : float :=
  fold_left (fun acc x => (acc + x)%float) l start.

(** The per-unit cost of a category: the sum of its matched prices. *)
Definition per_unit_formula (SERVICES : gmap string service) (consumable : bool)
    (names : list string) : float :=
  float_sum 0 (map service_price (of_category SERVICES consumable names)).

(** The result of [compute_sku_cost] as the specification describes it,
    given the packing of the item and its carton cost. *)
Definition sku_calc_formula (SERVICES : gmap string service) (s : sku)
    (box_count : Z) (oversize : bool) (per_box carton : float) : sku_calc :=
  let labour := per_unit_formula SERVICES false (services_names s) in
  let consumable := per_unit_formula SERVICES true (services_names s) in
  {| calc_qty := qty s;
     item_dims := dimensions s;
     boxes := box_count;
     items_per_box := per_box;
     is_oversize := oversize;
     work_items := map service_to_row (of_category SERVICES false (services_names s));
     cons_items := map service_to_row (of_category SERVICES true (services_names s));
     work_per_unit := labour;
     cons_per_unit := consumable;
     work_total := (labour * qty s)%float;
     cons_total := (consumable * qty s)%float;
     boxes_cost := carton;
     sku_total_no_ship := (labour * qty s + consumable * qty s + carton)%float |}.

(** The leg from the hub to the warehouse of an intermediate-carrier
    rate: per pallet when pallets were formed and a per-pallet rate is
    configured, otherwise per box with the per-box rate. *)
Definition warehouse_leg (tk : tk_rate) (total_boxes pallets : Z) : result float :=
  let per_box_leg :=
    match to_warehouse_per_box tk with
    | Some rate_b => Py.int_mul_float total_boxes rate_b
    | None => Raise (RuntimeError NoRateToWarehouse)
    end in
  match to_warehouse_per_pallet tk with
  | Some rate_p =>
      if (0 <? pallets)%Z then Py.int_mul_float pallets rate_p else per_box_leg
  | None => per_box_leg
  end.

(** Hub leg + warehouse leg + entry fee. *)
Definition tk_shipping_formula (hub_per_box : float) (tk : tk_rate)
    (total_boxes pallets : Z) : result float :=
  to_hub ← Py.int_mul_float total_boxes hub_per_box;
  leg ← warehouse_leg tk total_boxes pallets;
  Ok (to_hub + leg + Py.or_zero (entry_fee tk))%float.

(** The cost records of the line items, in order; the first item that
    raises decides the exception. *)
Fixpoint all_sku_costs (SERVICES : gmap string service) (box : dims)
    (client_boxes : bool) (l : list sku) : result (list sku_calc) :=
  match l with
  | [] => Ok []
  | s :: l' =>
      c ← compute_sku_cost SERVICES s box client_boxes;
      cs ← all_sku_costs SERVICES box client_boxes l';
      Ok (c :: cs)
  end.

(** The aggregated total box count. *)
Definition sum_boxes (cs : list sku_calc) : Z :=
  fold_right Z.add 0%Z (map boxes cs).

(** The grand total of a party, as [format_report] computes it. *)
Definition grand_total (SERVICES : gmap string service)
    (FF_WAREHOUSES : gmap string ff_rate) (TK_WAREHOUSES : gmap string tk_rate)
    (CONST : gmap string float) (data : party) : result float :=
  r ← format_report SERVICES FF_WAREHOUSES TK_WAREHOUSES CONST data;
  Ok (party_total r).

(** The party with its line items replaced. *)
Definition with_skus (data : party) (l : list sku) : party :=
  {| skus := l;
     warehouse := warehouse data;
     use_client_boxes := use_client_boxes data;
     box_dims := box_dims data |}.

(** The line item with its selected services replaced. *)
Definition with_services (s : sku) (l : list string) : sku :=
  {| name := name s;
     qty := qty s;
     dimensions := dimensions s;
     services_names := l |}.

(** ** A small catalog and a few parties to evaluate the engine on *)

Definition demo_services : gmap string service :=
  <["A" := ("A", 0.1%float, "работа", "шт")]>
  (<["B" := ("B", 0.2%float, "расходники", "шт")]>
  (<["C" := ("C", 0.3%float, "работа", "шт")]> ∅)).

Definition demo_ff : gmap string ff_rate :=
  <["Коледино" := {| ship_per_box := 50 |}]>
  (<["Подольск" := {| ship_per_box := 50 |}]> ∅).

Definition pallet_only : tk_rate :=
  {| to_warehouse_per_box := None;
     to_warehouse_per_pallet := Some 500%float;
     entry_fee := Some 0%float |}.

Definition box_only : tk_rate :=
  {| to_warehouse_per_box := Some 30%float;
     to_warehouse_per_pallet := None;
     entry_fee := Some 200%float |}.

Definition both_rates : tk_rate :=
  {| to_warehouse_per_box := Some 30%float;
     to_warehouse_per_pallet := Some 500%float;
     entry_fee := Some 200%float |}.

Definition demo_tk : gmap string tk_rate :=
  <["Казань" := pallet_only]>
  (<["Тула" := box_only]>
  (<["Коледино" := both_rates]> ∅)).

Definition demo_const : gmap string float :=
  <["PALLET" := 300%float]> (<["STRETCH" := 150%float]> ∅).

Definition demo_sku (svc : string) : sku :=
  {| name := svc; qty := 1; dimensions := (10, 10, 5)%float;
     services_names := [svc] |}.

Definition demo_party (l : list sku) : party :=
  {| skus := l; warehouse := "Подольск"; use_client_boxes := false;
     box_dims := (60, 40, 40)%float |}.

Definition oversize_sku : sku :=
  {| name := "шкаф"; qty := 12; dimensions := (70, 10, 5)%float;
     services_names := ["A"; "нет такой"] |}.

(** A carton so small that its volume underflows to zero. *)
Definition tiny_carton : dims := (1e-110, 1e-110, 1e-110)%float.

(** ** The rest of the program: texts, catalog loading, the request

    What follows embeds the code around the engine: the helpers that read
    the texts a user sends, the loops that build the catalog from the rows
    of the two workbooks, the list of selectable warehouses and the totals
    of the request sent to the manager.  Three functions of Python's
    library are not defined here but taken as given: [str.lower],
    [str.upper] and [float] applied to a [str]; every statement below
    holds whatever they compute. *)

(** ** Python strings

    A Python [str] is a sequence of code points; here it is a [string] of
    bytes, the UTF-8 encoding of the text.  Equality, concatenation,
    prefix and substring tests on the encodings agree with those on the
    code points, because no encoding of a code point occurs inside the
    encoding of another; byte order is code-point order. *)

Module Str.

(** The string of the given bytes. *)
Definition of_bytes (l : list nat) : string :=
  fold_right (fun b s => String (Ascii.ascii_of_nat b) s) EmptyString l.

(** [s[n:]] for a string whose first [n] code points are ASCII. *)
Fixpoint drop (n : nat) (s : string) : string :=
  match n, s with
  | S n', String _ s' => drop n' s'
  | _, _ => s
  end.

(** [s.startswith(p)] *)
Definition startswith (p s : string) : bool := String.prefix p s.

(** [sub in s] *)
Fixpoint contains (sub s : string) : bool :=
  String.prefix sub s
  || match s with
     | EmptyString => false
     | String _ s' => contains sub s'
     end.

(** [s.split(sep, 1)[0]]: the part of [s] before the first [sep], all of
    [s] when [sep] does not occur. *)
Fixpoint before (sep s : string) : string :=
  if String.prefix sep s then EmptyString
  else match s with
       | EmptyString => EmptyString
       | String a s' => String a (before sep s')
       end.

(** The code points for which [str.isspace] holds, UTF-8 encoded: U+0009
    to U+000D, U+001C to U+0020, U+0085, U+00A0, U+1680, U+2000 to
    U+200A, U+2028, U+2029, U+202F, U+205F and U+3000. *)
Definition WHITESPACE : list string :=
  map of_bytes
    [ [9]; [10]; [11]; [12]; [13]; [28]; [29]; [30]; [31]; [32];
      [194; 133]; [194; 160]; [225; 154; 128];
      [226; 128; 128]; [226; 128; 129]; [226; 128; 130]; [226; 128; 131];
      [226; 128; 132]; [226; 128; 133]; [226; 128; 134]; [226; 128; 135];
      [226; 128; 136]; [226; 128; 137]; [226; 128; 138];
      [226; 128; 168]; [226; 128; 169]; [226; 128; 175];
      [226; 129; 159]; [227; 128; 128] ]%nat.

(** [s] without its first code point when that is one of [table]. *)
Fixpoint drop_one (table : list string) (s : string) : option string :=
  match table with
  | [] => None
  | w :: table' =>
      if String.prefix w s then Some (drop (String.length w) s)
      else drop_one table' s
  end.

(** [s] without its leading code points of [table]; [fuel] bounds their
    number. *)
Fixpoint drop_leading (table : list string) (fuel : nat) (s : string) : string :=
  match fuel with
  | O => s
  | S fuel' =>
      match drop_one table s with
      | Some s' => drop_leading table fuel' s'
      | None => s
      end
  end.

Definition lstrip (s : string) : string :=
  drop_leading WHITESPACE (String.length s) s.

Definition rstrip (s : string) : string :=
  String.rev
    (drop_leading (map String.rev WHITESPACE) (String.length s) (String.rev s)).

(** [s.strip()] *)
Definition strip (s : string) : string := rstrip (lstrip s).

(** [s.replace(old, new)] for a non-empty [old]: the occurrences of
    [old] are replaced from left to right, without overlap. *)
Fixpoint replace_go (fuel : nat) (old new s : string) : string :=
  match fuel with
  | O => s
  | S fuel' =>
      if String.prefix old s then
        new +:+ replace_go fuel' old new (drop (String.length old) s)
      else
        match s with
        | EmptyString => EmptyString
        | String a s' => String a (replace_go fuel' old new s')
        end
  end.

Definition replace (old new s : string) : string :=
  replace_go (S (String.length s)) old new s.

(** [s.split(sep)] for a non-empty [sep]: the pieces between the
    occurrences of [sep], empty pieces included; [cur] is the piece being
    read, reversed. *)
Fixpoint split_go (fuel : nat) (sep : string) (cur : string) (s : string)
  : list string :=
  match fuel with
  | O => [String.rev cur]
  | S fuel' =>
      if String.prefix sep s then
        String.rev cur :: split_go fuel' sep EmptyString (drop (String.length sep) s)
      else
        match s with
        | EmptyString => [String.rev cur]
        | String a s' => split_go fuel' sep (String a cur) s'
        end
  end.

Definition split (sep s : string) : list string :=
  split_go (S (String.length s)) sep EmptyString s.

(** [s.split()]: the maximal runs of code points that are not whitespace. *)
Fixpoint split_whitespace_go (fuel : nat) (cur : string) (s : string)
  : list string :=
  let flush := match cur with EmptyString => [] | _ => [String.rev cur] end in
  match fuel with
  | O => flush
  | S fuel' =>
      match drop_one WHITESPACE s with
      | Some s' => flush ++ split_whitespace_go fuel' EmptyString s'
      | None =>
          match s with
          | EmptyString => flush
          | String a s' => split_whitespace_go fuel' (String a cur) s'
          end
      end
  end.

Definition split_whitespace (s : string) : list string :=
  split_whitespace_go (S (String.length s)) EmptyString s.

End Str.

(** The constants of the dialogue. *)
Definition MAX_SKU : nat := 10.

(** [WAREHOUSE_BOXES]: the cartons the warehouse offers. *)
Definition WAREHOUSE_BOXES : gmap string dims :=
  <["60×40×40" := (60, 40, 40)%float]>
  (<["40×30×30" := (40, 30, 30)%float]> ∅).

(** A row of [services.xlsx] as the loop of [load_services_from_xlsx]
    reads it, after the rows without a numeric price are dropped: the
    cells [наименование], [ед.изм] and [категория] through [str(...)],
    the cell [цена] through [float(...)]. *)
Record services_xlsx_row : Type := ServicesRow {
  sx_name : string;
  sx_unit : string;
  sx_price : float;
  sx_cat : string
}.

(** A row of a sheet of [shipping.xlsx] after [_need_cols]: the cells
    [код] and [наименование] through [str(...)], [цена] through
    [float(...)]. *)
Record shipping_xlsx_row : Type := ShippingRow {
  sh_code : string;
  sh_name : string;
  sh_price : float
}.

(** The record a warehouse of the TK sheet starts with. *)
Definition tk_blank : tk_rate :=
  {| to_warehouse_per_box := None;
     to_warehouse_per_pallet := None;
     entry_fee := Some 0%float |}.

(** [d.setdefault(key, value)] *)
Definition setdefault (key : string) (value : float) (d : gmap string float)
  : gmap string float :=
  match d !! key with
  | Some _ => d
  | None => <[key := value]> d
  end.

(** What the handler [sku_qty] does with a message. *)
Inductive qty_outcome : Type :=
  | QtyBack
  | QtyRejected
  | QtyAccepted (q : float).

(** The totals [format_manager_request] computes before it renders. *)
Record manager_totals : Type := ManagerTotals {
  m_total_sum_no_ship : float;
  m_total_boxes : Z;
  m_pallets : Z;
  m_max_on_pallet : Z;
  m_pallet_cost : float;
  m_stretch_cost : float;
  m_ship_type : string;
  m_ship_cost : float;
  m_party_total : float
}.

(** What the handler [services] does with a message: a change of the
    category shown, a new list of selected services, back, done, or a
    text it does not understand. *)
Inductive services_outcome : Type :=
  | SvcCategory (cat : string)
  | SvcSelected (selected : list string)
  | SvcBack
  | SvcDone
  | SvcRejected.

Section Texts.

(** [s.lower()], [s.upper()] and [float(s)] ([None] for [ValueError]). *)
Variable str_lower : string -> string.
Variable str_upper : string -> string.
Variable py_float : string -> option float.

Definition parse_dimensions (text : string) : option dims :=
  let t := Str.replace "х" "x" (Str.replace "*" "x" (Str.replace "×" "x"
             (str_lower text))) in
  let t := Str.strip (Str.replace "," "." t) in
  let parts :=
    if Str.contains "x" t then
      List.filter (fun p => negb (String.eqb p ""))
        (map Str.strip (Str.split "x" t))
    else
      List.filter (fun p => negb (String.eqb p ""))
        (map Str.strip (Str.split_whitespace t)) in
  match parts with
  | [pl; pw; ph] =>
      match py_float pl, py_float pw, py_float ph with
      | Some l, Some w, Some h =>
          if (l <=? 0)%float || (w <=? 0)%float || (h <=? 0)%float then None
          else Some (l, w, h)
      | _, _, _ => None
      end
  | _ => None
  end.

Definition get_template_dimensions (name : string) : option dims :=
  let n := str_lower name in
  if Str.contains "мал" n then Some (10, 10, 5)%float
  else if Str.contains "сред" n then Some (25, 20, 5)%float
  else if Str.contains "круп" n then Some (30, 40, 5)%float
  else None.

Definition parse_service_button (text : string) : string :=
  if negb (Str.contains "—" text) then ""
  else Str.strip (Str.before "—" text).

(** The decision of the handler [sku_qty]: back, a rejected text, or the
    quantity stored in the line item. *)
Definition sku_qty (message_text : string) : qty_outcome :=
  let text := Str.strip message_text in
  if String.eqb (str_lower text) "назад" then QtyBack
  else
    let text := Str.replace "," "." text in
    match py_float text with
    | None => QtyRejected
    | Some q => if (q <=? 0)%float then QtyRejected else QtyAccepted q
    end.

(** One turn of the loop of [load_services_from_xlsx]. *)
Definition load_services_step (services : gmap string service)
    (r : services_xlsx_row) : gmap string service :=
  let name := Str.strip (sx_name r) in
  let unit := Str.strip (sx_unit r) in
  let price := sx_price r in
  let cat := str_lower (Str.strip (sx_cat r)) in
  if String.eqb name "" || String.eqb (str_lower name) "nan" then services
  else
    let unit :=
      if String.eqb unit "" || String.eqb (str_lower unit) "nan" then "шт"
      else unit in
    let cat :=
      if String.eqb cat "работа" || String.eqb cat "расходники" then cat
      else "работа" in
    <[name := (name, price, cat, unit)]> services.

(** [load_services_from_xlsx] from the rows on: [None] is the
    [RuntimeError] raised when no service is left. *)
Definition load_services_from_xlsx (rows : list services_xlsx_row)
  : option (gmap string service) :=
  let services := fold_left load_services_step rows ∅ in
  if decide (services = ∅) then None else Some services.

(** One turn of the loop over the FF sheet; the state is
    [(FF_WAREHOUSES, CONST)]. *)
Definition load_ff_step (acc : gmap string ff_rate * gmap string float)
    (r : shipping_xlsx_row) : gmap string ff_rate * gmap string float :=
  let '(FF, C) := acc in
  let code := Str.strip (sh_code r) in
  let name := Str.strip (sh_name r) in
  let price := sh_price r in
  if String.eqb code "" || String.eqb (str_lower code) "nan" then acc
  else
    let up := str_upper code in
    if Str.startswith "FF_SHIP_BOX_" up then
      if negb (String.eqb name "") then
        (<[name := {| ship_per_box := price |}]> FF, C)
      else acc
    else
      let key := if Str.startswith "FF_" up then Str.drop 3 up else up in
      (FF, <[key := price]> C).

(** One turn of the loop over the TK sheet; the state is
    [(TK_WAREHOUSES, CONST)]. *)
Definition load_tk_step (acc : gmap string tk_rate * gmap string float)
    (r : shipping_xlsx_row) : gmap string tk_rate * gmap string float :=
  let '(TK, C) := acc in
  let code := Str.strip (sh_code r) in
  let name := Str.strip (sh_name r) in
  let price := sh_price r in
  if String.eqb code "" || String.eqb (str_lower code) "nan" then acc
  else
    let up := str_upper code in
    if String.eqb up "TO_TK_PER_BOX" || String.eqb up "TK_TO_TK_PER_BOX" then
      (TK, <["TO_TK_PER_BOX" := price]> C)
    else if negb (Str.startswith "TK_" up) then acc
    else if String.eqb name "" then acc
    else
      let wh := name in
      let rec := default tk_blank (TK !! wh) in
      let rec :=
        if Str.contains "PALLET" up || Str.contains "ПАЛЛЕТ" up then
          {| to_warehouse_per_box := to_warehouse_per_box rec;
             to_warehouse_per_pallet := Some price;
             entry_fee := entry_fee rec |}
        else if Str.contains "ENTRY" up || Str.contains "ВЪЕЗД" up then
          {| to_warehouse_per_box := to_warehouse_per_box rec;
             to_warehouse_per_pallet := to_warehouse_per_pallet rec;
             entry_fee := Some price |}
        else
          {| to_warehouse_per_box := Some price;
             to_warehouse_per_pallet := to_warehouse_per_pallet rec;
             entry_fee := entry_fee rec |} in
      (<[wh := rec]> TK, C).

(** [load_shipping_from_xlsx] from the rows of the two sheets on. *)
Definition load_shipping_from_xlsx (ff_rows tk_rows : list shipping_xlsx_row)
  : gmap string ff_rate * gmap string tk_rate * gmap string float :=
  let '(FF, C) := fold_left load_ff_step ff_rows (∅, ∅) in
  let C := setdefault "PALLET" 0 C in
  let C := setdefault "STRETCH" 0 C in
  let C := setdefault "PALLET_THRESHOLD_BOXES" 10 C in
  let C := setdefault "TO_TK_PER_BOX" 100 C in
  let '(TK, C) := fold_left load_tk_step tk_rows (∅, C) in
  (FF, TK, C).

(** The decision of the handler [services] on a message, given the
    catalog and the services selected so far for the line item. *)
Definition services (SERVICES : gmap string service) (selected : list string)
    (message_text : string) : services_outcome :=
  let text := Str.strip message_text in
  if String.eqb (str_lower text) "работа"
     || String.eqb (str_lower text) "расходники" then
    SvcCategory (str_lower text)
  else if String.eqb text "Отменить последнюю услугу" then
    SvcSelected (removelast selected)
  else if String.eqb text "Назад" then SvcBack
  else if String.eqb text "Готово" then SvcDone
  else
    let svc_name := parse_service_button text in
    if String.eqb svc_name "" || negb (bool_decide (is_Some (SERVICES !! svc_name)))
    then SvcRejected
    else if bool_decide (svc_name ∈ selected) then SvcSelected selected
    else SvcSelected (selected ++ [svc_name]).

End Texts.

(** The text [services_keyboard] puts on the button of a service;
    [format_g] is the conversion [:g] of the price. *)
Definition service_button_label (format_g : float -> string) (s : service)
  : string :=
  let '(nm, price, c, unit) := s in
  nm +:+ " — " +:+ format_g price +:+ " ₽/" +:+ unit.

(** [WAREHOUSE_NAMES]: the names of both tables, each once, in ascending
    order. *)
Definition WAREHOUSE_NAMES (FF_WAREHOUSES : gmap string ff_rate)
    (TK_WAREHOUSES : gmap string tk_rate) : list string :=
  merge_sort String.le
    (elements (dom FF_WAREHOUSES ∪ dom TK_WAREHOUSES : gset string)).

(** The loop of [format_manager_request]; the state is
    [(total_sum_no_ship, total_boxes)]. *)
Fixpoint manager_loop (SERVICES : gmap string service) (box_dims : dims)
    (use_client_boxes : bool) (l : list sku) (acc : float * Z)
  : result (float * Z) :=
  match l with
  | [] => Ok acc
  | s :: l' =>
      let '(total_sum_no_ship, total_boxes) := acc in
      calc ← compute_sku_cost SERVICES s box_dims use_client_boxes;
      manager_loop SERVICES box_dims use_client_boxes l'
        ((total_sum_no_ship + sku_total_no_ship calc)%float,
         (total_boxes + boxes calc)%Z)
  end.

(** [format_manager_request] up to and including [party_total]. *)
Definition format_manager_request (SERVICES : gmap string service)
    (FF_WAREHOUSES : gmap string ff_rate) (TK_WAREHOUSES : gmap string tk_rate)
    (CONST : gmap string float) (data : party) : result manager_totals :=
  '(total_sum_no_ship, total_boxes) ←
    manager_loop SERVICES (box_dims data) (use_client_boxes data) (skus data)
      (0%float, 0%Z);
  '(pallets, max_on_pallet, pallet_cost, stretch_cost) ←
    party_palletization CONST total_boxes (box_dims data);
  '(ship_type, ship_cost) ←
    party_shipping_cost FF_WAREHOUSES TK_WAREHOUSES CONST (warehouse data)
      total_boxes pallets;
  Ok {| m_total_sum_no_ship := total_sum_no_ship;
        m_total_boxes := total_boxes;
        m_pallets := pallets;
        m_max_on_pallet := max_on_pallet;
        m_pallet_cost := pallet_cost;
        m_stretch_cost := stretch_cost;
        m_ship_type := ship_type;
        m_ship_cost := ship_cost;
        m_party_total :=
          (total_sum_no_ship + pallet_cost + stretch_cost + ship_cost)%float |}.

(** The totals of a report, laid out as those of a request. *)
Definition report_as_request (r : party_totals) : manager_totals :=
  {| m_total_sum_no_ship := total_sum_no_ship r;
     m_total_boxes := total_boxes r;
     m_pallets := pallets r;
     m_max_on_pallet := max_on_pallet r;
     m_pallet_cost := pallet_cost r;
     m_stretch_cost := stretch_cost r;
     m_ship_type := ship_type r;
     m_ship_cost := ship_cost r;
     m_party_total := party_total r |}.

(** ** Sample texts and rows *)

(** [str.lower] and [str.upper] on a text whose cased letters are all
    ASCII. *)
Definition ascii_lower_byte (a : Ascii.ascii) : Ascii.ascii :=
  let n := Ascii.nat_of_ascii a in
  if (65 <=? n)%nat && (n <=? 90)%nat then Ascii.ascii_of_nat (n + 32) else a.

Definition ascii_upper_byte (a : Ascii.ascii) : Ascii.ascii :=
  let n := Ascii.nat_of_ascii a in
  if (97 <=? n)%nat && (n <=? 122)%nat then Ascii.ascii_of_nat (n - 32) else a.

Fixpoint map_bytes (f : Ascii.ascii -> Ascii.ascii) (s : string) : string :=
  match s with
  | EmptyString => EmptyString
  | String a s' => String (f a) (map_bytes f s')
  end.

Definition ascii_lower : string -> string := map_bytes ascii_lower_byte.
Definition ascii_upper : string -> string := map_bytes ascii_upper_byte.

(** [float] on the few texts the samples use. *)
Definition sample_float (s : string) : option float :=
  if String.eqb s "nan" then Some nan
  else if String.eqb s "inf" then Some infinity
  else if String.eqb s "12.5" then Some 12.5%float
  else if String.eqb s "60" then Some 60%float
  else if String.eqb s "40" then Some 40%float
  else if String.eqb s "0" then Some 0%float
  else None.

Definition sample_ff_rows : list shipping_xlsx_row :=
  [ {| sh_code := "FF_SHIP_BOX_PODOLSK"; sh_name := " Podolsk "; sh_price := 50 |};
    {| sh_code := "FF_PALLET"; sh_name := "pallet"; sh_price := 300 |};
    {| sh_code := "nan"; sh_name := "note"; sh_price := 1 |} ].

Definition sample_tk_rows : list shipping_xlsx_row :=
  [ {| sh_code := "TK_KAZAN_ENTRY"; sh_name := "Kazan"; sh_price := 700 |};
    {| sh_code := "tk_tula_pallet"; sh_name := "Tula"; sh_price := 500 |};
    {| sh_code := "TK_TULA"; sh_name := "Tula"; sh_price := 30 |};
    {| sh_code := "TO_TK_PER_BOX"; sh_name := "hub"; sh_price := 120 |};
    {| sh_code := "STRETCH"; sh_name := "Stretch"; sh_price := 9 |} ].

Definition sample_services_rows : list services_xlsx_row :=
  [ {| sx_name := " Sticker "; sx_unit := "nan"; sx_price := 5; sx_cat := "Other" |};
    {| sx_name := "nan"; sx_unit := "pc"; sx_price := 1; sx_cat := "" |} ].

(** ** Facts about binary64 numbers *)

Lemma Prim2SF_zero : Prim2SF 0%float = S754_zero false.
Proof. reflexivity. Qed.
Lemma Prim2SF_one :
  Prim2SF 1%float = S754_finite false 4503599627370496 (-52).
Proof. reflexivity. Qed.

Lemma positive_not_leb_zero (x : float) :
  (0 <? x)%float = true -> (x <=? 0)%float = false.
Proof.
  rewrite FloatAxioms.ltb_spec, FloatAxioms.leb_spec, Prim2SF_zero.
  unfold SFltb, SFleb, SFcompare.
  destruct (Prim2SF x) as [s|s| |s m e]; try destruct s; congruence.
Qed.

Lemma compare_cont_Eq (p q : positive) :
  PosDef.Pos.compare_cont Eq p q = Pos.compare p q.
Proof. reflexivity. Qed.

(** Only the binary64 form of 1 compares equal to it. *)
Lemma compare_with_one (x : spec_float) :
  SFcompare x (S754_finite false 4503599627370496 (-52)) = Some Eq ->
  x = S754_finite false 4503599627370496 (-52).
Proof.
  unfold SFcompare.
  destruct x as [s|s| |s m e]; try destruct s; try discriminate.
  destruct (Z.compare_spec e (-52)); try discriminate.
  rewrite compare_cont_Eq. intros Hc.
  assert (Hm : Pos.compare m 4503599627370496 = Eq) by congruence.
  apply Pos.compare_eq in Hm. congruence.
Qed.

Lemma compare_one_swap (x : spec_float) :
  SFcompare (S754_finite false 4503599627370496 (-52)) x
  = match SFcompare x (S754_finite false 4503599627370496 (-52)) with
    | Some c => Some (CompOpp c)
    | None => None
    end.
Proof.
  unfold SFcompare.
  destruct x as [s|s| |s m e]; try destruct s; try reflexivity.
  rewrite (Z.compare_antisym e (-52)).
  destruct (e ?= -52)%Z; try reflexivity.
  rewrite !compare_cont_Eq. unfold CompOpp at 1.
  now rewrite (Pos.compare_antisym m).
Qed.

(** A float that is not below 1, not above 1 and not NaN is 1. *)
Lemma neither_side_of_one (r : float) :
  (r =? r)%float = true -> (r <? 1)%float = false -> (1 <? r)%float = false ->
  r = 1%float.
Proof.
  rewrite FloatAxioms.eqb_spec, !FloatAxioms.ltb_spec, Prim2SF_one.
  intros Hnum Hlt Hgt. apply Prim2SF_inj. rewrite Prim2SF_one.
  apply compare_with_one.
  unfold SFltb in Hlt, Hgt. rewrite compare_one_swap in Hgt.
  destruct (SFcompare (Prim2SF r) _) as [[]|] eqn:Hc; try discriminate; try reflexivity.
  unfold SFeqb in Hnum.
  destruct (Prim2SF r) as [s|s| |s m e]; try destruct s; discriminate.
Qed.

(** A float below 1 is not above it. *)
Lemma below_one_not_above (r : float) :
  (r <? 1)%float = true -> (1 <? r)%float = false.
Proof.
  rewrite !FloatAxioms.ltb_spec, Prim2SF_one. unfold SFltb.
  rewrite compare_one_swap.
  destruct (SFcompare (Prim2SF r) _) as [[]|]; try discriminate; reflexivity.
Qed.

(** NaN is the one float that differs from itself. *)
Lemma not_self_equal_nan (r : float) :
  (r =? r)%float = false -> Prim2SF r = S754_nan.
Proof.
  rewrite FloatAxioms.eqb_spec. unfold SFeqb, SFcompare.
  destruct (Prim2SF r) as [s|s| |s m e]; try destruct s; try congruence;
    rewrite Z.compare_refl, compare_cont_Eq, Pos.compare_refl;
    cbv beta iota delta [CompOpp]; congruence.
Qed.

Lemma clamp_one_is_max (r : float) :
  (r =? r)%float = true -> clamp_one r = float_max 1 r.
Proof.
  intros Hnum. unfold clamp_one, float_max.
  destruct (r <? 1)%float eqn:Hlt.
  - now rewrite (below_one_not_above r Hlt).
  - destruct (1 <? r)%float eqn:Hgt; [reflexivity|].
    now apply neither_side_of_one.
Qed.

(** Dividing by NaN gives NaN, whose ceiling Python refuses. *)
Lemma box_count_formula_nan (qty r : float) :
  (r =? r)%float = false -> box_count_formula qty r = Raise ValueError.
Proof.
  intros Hnan. unfold box_count_formula, Py.float_truediv.
  assert (Hr : Prim2SF r = S754_nan) by now apply not_self_equal_nan.
  assert (Hz : (r =? 0)%float = false).
  { rewrite FloatAxioms.eqb_spec, Hr. reflexivity. }
  rewrite Hz. unfold mbind, result_bind, Py.math_ceil.
  rewrite FloatAxioms.div_spec, Hr.
  destruct (Prim2SF qty) as [s|s| |s m e]; reflexivity.
Qed.

Lemma pallet_volume_value :
  Py.int_mul_float BASE_BOXES_PER_PALLET (vol BASE_PALLET_BOX)
  = Ok (16 * vol (60, 40, 40))%float.
Proof. reflexivity. Qed.

(** ** Geometry and packing: pallet capacity *)

Lemma boxes_per_pallet_by_volume_eq (d : dims) :
  boxes_per_pallet_by_volume d
  = if (vol d <=? 0)%float then Ok 16%Z else pallet_capacity_formula d.
Proof.
  unfold boxes_per_pallet_by_volume. rewrite pallet_volume_value.
  reflexivity.
Qed.

(** C8, as the code has it.  For every carton whose volume, computed in
    floating point, is positive, [boxes_per_pallet_by_volume] is
    [max(1, floor(16 × volume(60,40,40) / volume(carton)))]; it takes the
    carton dimensions and nothing else; and the reference carton
    60×40×40 gives exactly 16. *)
Theorem boxes_per_pallet_by_volume_formula (d : dims)
    (Hvol : (0 <? vol d)%float = true) :
  boxes_per_pallet_by_volume d = pallet_capacity_formula d
  /\ boxes_per_pallet_by_volume (60, 40, 40)%float = Ok 16%Z.
Proof.
  split; [|reflexivity].
  rewrite boxes_per_pallet_by_volume_eq.
  now rewrite (positive_not_leb_zero _ Hvol).
Qed.

Lemma boxes_per_pallet_by_volume_formula_witness :
  (0 <? vol (40, 30, 30)%float)%float = true
  /\ boxes_per_pallet_by_volume (40, 30, 30)%float
     = pallet_capacity_formula (40, 30, 30)%float
  /\ boxes_per_pallet_by_volume (60, 40, 40)%float = Ok 16%Z.
Proof.
  split; [reflexivity|].
  apply (boxes_per_pallet_by_volume_formula (40, 30, 30)%float).
  reflexivity.
Defined.

(** C8 as the specification words it fails on a carton whose three
    positive dimensions multiply to a volume that underflows to zero: the
    code answers 16, the formula has no value there. *)
Lemma boxes_per_pallet_by_volume_underflow :
  positive_dims tiny_carton = true
  /\ boxes_per_pallet_by_volume tiny_carton = Ok 16%Z
  /\ pallet_capacity_formula tiny_carton = Raise ZeroDivisionError
  /\ boxes_per_pallet_by_volume tiny_carton <> pallet_capacity_formula tiny_carton.
Proof.
  repeat split; try reflexivity.
  vm_compute. discriminate.
Qed.

(** ** Geometry and packing: boxes of a line item *)

Lemma calculate_boxes_for_item_eq (q : float) (item box : dims) :
  calculate_boxes_for_item q item box
  = if exceeds item box then
      c ← Py.math_ceil q; Ok (c, true, 1%float)
    else
      per_box ← items_per_box_formula item box;
      b ← box_count_formula q per_box;
      Ok (b, false, per_box).
Proof.
  destruct item as [[l w] h], box as [[bl bw] bh].
  unfold calculate_boxes_for_item, exceeds, items_per_box_formula,
    box_count_formula, clamp_one.
  destruct ((bl <? l)%float || (bw <? w)%float || (bh <? h)%float);
    [reflexivity|].
  destruct (vol (l, w, h) <=? 0)%float.
  - unfold mbind, result_bind.
    destruct (Py.float_truediv q 1); reflexivity.
  - unfold mbind, result_bind.
    destruct (Py.float_truediv (vol (bl, bw, bh)) (vol (l, w, h))) as [r|e];
      [|reflexivity].
    destruct (Py.float_truediv q _); reflexivity.
Qed.

(** NaN is below nothing. *)
Lemma nan_not_below_one (r : float) :
  (r =? r)%float = false -> (r <? 1)%float = false.
Proof.
  intros Hnan. rewrite FloatAxioms.ltb_spec, (not_self_equal_nan r Hnan).
  reflexivity.
Qed.

(** C4.  For a line item none of whose dimensions exceeds the carton's:
    the function returns what the formulas [items_per_box_formula] and
    [box_count_formula = ceil(qty / itemsPerBox)] give, flagged not
    oversize; items-per-box is 1 when the item volume is zero or less;
    whenever a result comes back for an item of positive volume, its
    items-per-box is [max(1, volume(carton) / volume(item))] with the
    exact ratio; and 12 items 10×10×5 in a 60×40×40 carton pack 192 to a
    box, into one box. *)
Theorem calculate_boxes_for_item_packed (q : float) (item box : dims)
    (Hfit : exceeds item box = false) :
  calculate_boxes_for_item q item box
    = (per_box ← items_per_box_formula item box;
       b ← box_count_formula q per_box;
       Ok (b, false, per_box))
  /\ ((vol item <=? 0)%float = true ->
      items_per_box_formula item box = Ok 1%float)
  /\ (forall b ov per_box,
        calculate_boxes_for_item q item box = Ok (b, ov, per_box) ->
        (vol item <=? 0)%float = false ->
        exists r,
          Py.float_truediv (vol box) (vol item) = Ok r
          /\ per_box = float_max 1 r
          /\ box_count_formula q per_box = Ok b
          /\ ov = false)
  /\ calculate_boxes_for_item 12 (10, 10, 5)%float (60, 40, 40)%float
     = Ok (1%Z, false, 192%float).
Proof.
  assert (Heq := calculate_boxes_for_item_eq q item box).
  rewrite Hfit in Heq.
  split; [exact Heq|].
  split.
  { intros Hz. unfold items_per_box_formula. now rewrite Hz. }
  split; [|reflexivity].
  intros b ov per_box Hret Hpos. rewrite Heq in Hret. clear Heq.
  unfold items_per_box_formula in Hret. rewrite Hpos in Hret.
  destruct (Py.float_truediv (vol box) (vol item)) as [r|e];
    [|discriminate].
  exists r. split; [reflexivity|].
  unfold mbind, result_bind in Hret.
  destruct (r =? r)%float eqn:Hnum.
  - rewrite <- (clamp_one_is_max r Hnum).
    destruct (box_count_formula q (clamp_one r)) as [b'|e] eqn:Hb;
      [|discriminate].
    assert (b' = b /\ false = ov /\ clamp_one r = per_box) as (-> & <- & <-)
      by (repeat split; congruence).
    auto.
  - exfalso. unfold clamp_one in Hret.
    rewrite (nan_not_below_one r Hnum) in Hret.
    rewrite (box_count_formula_nan q r Hnum) in Hret. discriminate.
Qed.

Lemma calculate_boxes_for_item_packed_witness :
  exceeds (25, 20, 5)%float (40, 30, 30)%float = false
  /\ calculate_boxes_for_item 1000 (25, 20, 5)%float (40, 30, 30)%float
     = Ok (70%Z, false, 14.4%float).
Proof.
  split; [reflexivity|].
  destruct (calculate_boxes_for_item_packed 1000 (25, 20, 5)%float
              (40, 30, 30)%float eq_refl) as [Heq _].
  rewrite Heq. reflexivity.
Defined.

(** ** Pricing of a line item *)

Section Pricing.

Variable SERVICES : gmap string service.

Lemma matched_cons (n : string) (names : list string) :
  matched SERVICES (n :: names)
  = match SERVICES !! n with
    | Some sv => sv :: matched SERVICES names
    | None => matched SERVICES names
    end.
Proof. reflexivity. Qed.

Lemma matched_app (l1 l2 : list string) :
  matched SERVICES (l1 ++ l2) = matched SERVICES l1 ++ matched SERVICES l2.
Proof.
  induction l1 as [|n l1 IH]; [reflexivity|].
  rewrite <- app_comm_cons, !matched_cons, IH.
  now destruct (SERVICES !! n).
Qed.

(** The loop over the selected services computes, per category, the rows
    and the sum of the prices of the matched services. *)
Lemma services_fold (names : list string) :
  forall wi ci w c,
    fold_left (services_step SERVICES) names (wi, ci, w, c)
    = (wi ++ map service_to_row (of_category SERVICES false names),
       ci ++ map service_to_row (of_category SERVICES true names),
       float_sum w (map service_price (of_category SERVICES false names)),
       float_sum c (map service_price (of_category SERVICES true names))).
Proof.
  unfold of_category.
  induction names as [|n names IH]; intros wi ci w c.
  - cbn [fold_left matched omap list_omap List.filter map float_sum].
    now rewrite !app_nil_r.
  - cbn [fold_left]. rewrite matched_cons. unfold services_step at 2.
    destruct (SERVICES !! n) as [[[[nm price] cat] unit]|]; [|apply IH].
    cbn [List.filter service_is_consumable].
    destruct (bool_decide (cat = CAT_CONSUMABLES)); rewrite IH;
      cbn [Bool.eqb map service_to_row service_price float_sum fold_left];
      now rewrite <- app_assoc.
Qed.

Lemma compute_sku_cost_eq (s : sku) (box : dims) (client_boxes : bool) :
  compute_sku_cost SERVICES s box client_boxes
  = ('(b, ov, per_box) ← calculate_boxes_for_item (qty s) (dimensions s) box;
     carton ← carton_cost_formula client_boxes ov b;
     Ok (sku_calc_formula SERVICES s b ov per_box carton)).
Proof.
  unfold compute_sku_cost. rewrite services_fold.
  destruct (calculate_boxes_for_item _ _ _) as [[[b ov] per_box]|e];
    [|reflexivity].
  unfold mbind, result_bind, carton_cost_formula, Py.int_mul_float.
  destruct client_boxes, ov; reflexivity.
Qed.

(** C5.  [compute_sku_cost] packs the item, then returns the record of
    [sku_calc_formula]: per category the per-unit cost is the sum of the
    prices of the selected services found in the catalog, the total is
    per-unit × quantity, the carton cost is box count × [BOX_PRICE]
    unless the cartons are the customer's or the item is oversize (then
    0), and the subtotal is the three added, with nothing for shipping
    or pallets.  A selected name that the catalog lacks changes nothing
    and raises nothing. *)
Theorem compute_sku_cost_breakdown (s : sku) (box : dims) (client_boxes : bool) :
  compute_sku_cost SERVICES s box client_boxes
    = ('(b, ov, per_box) ← calculate_boxes_for_item (qty s) (dimensions s) box;
       carton ← carton_cost_formula client_boxes ov b;
       Ok (sku_calc_formula SERVICES s b ov per_box carton))
  /\ (forall r,
        compute_sku_cost SERVICES s box client_boxes = Ok r ->
        work_per_unit r = per_unit_formula SERVICES false (services_names s)
        /\ cons_per_unit r = per_unit_formula SERVICES true (services_names s)
        /\ work_total r = (work_per_unit r * qty s)%float
        /\ cons_total r = (cons_per_unit r * qty s)%float
        /\ carton_cost_formula client_boxes (is_oversize r) (boxes r)
           = Ok (boxes_cost r)
        /\ sku_total_no_ship r
           = (work_total r + cons_total r + boxes_cost r)%float)
  /\ (forall b, carton_cost_formula true false b = Ok 0%float)
  /\ (forall b, carton_cost_formula client_boxes true b = Ok 0%float)
  /\ (forall b, carton_cost_formula false false b = Py.int_mul_float b BOX_PRICE)
  /\ (forall unknown before after,
        SERVICES !! unknown = None ->
        compute_sku_cost SERVICES
          (with_services s (before ++ unknown :: after)) box client_boxes
        = compute_sku_cost SERVICES
            (with_services s (before ++ after)) box client_boxes).
Proof.
  split; [apply compute_sku_cost_eq|].
  split.
  { intros r. rewrite compute_sku_cost_eq.
    destruct (calculate_boxes_for_item _ _ _) as [[[b ov] per_box]|e];
      [|discriminate].
    unfold mbind, result_bind.
    destruct (carton_cost_formula client_boxes ov b) as [carton|e] eqn:Hc;
      [|discriminate].
    intros [= <-]. cbn [sku_calc_formula work_per_unit cons_per_unit work_total
      cons_total boxes_cost sku_total_no_ship is_oversize boxes].
    auto 10. }
  split; [reflexivity|].
  split; [now destruct client_boxes|].
  split; [reflexivity|].
  intros unknown before after Hnone.
  rewrite !compute_sku_cost_eq.
  unfold sku_calc_formula, per_unit_formula, of_category. cbn [with_services
    services_names qty dimensions].
  rewrite !matched_app, matched_cons, Hnone. reflexivity.
Qed.

End Pricing.

Lemma compute_sku_cost_breakdown_witness :
  demo_services !! "нет такой" = None
  /\ compute_sku_cost demo_services
       (with_services oversize_sku (["A"] ++ "нет такой" :: ["B"]))
       (60, 40, 40)%float false
     = compute_sku_cost demo_services
         (with_services oversize_sku (["A"] ++ ["B"])) (60, 40, 40)%float false.
Proof.
  split; [reflexivity|].
  now apply (compute_sku_cost_breakdown demo_services oversize_sku
               (60, 40, 40)%float false).
Defined.

(** ** The oversize rule *)

(** C2.  When the length, width or height of the item exceeds that of
    the carton, whatever the volumes, [calculate_boxes_for_item] returns
    box count [ceil(qty)], the oversize flag and items-per-box 1, and
    [compute_sku_cost] gives the item a carton cost of zero (with the
    customer's cartons or the warehouse's). *)
Theorem oversize_item (q : float) (item box : dims)
    (Hover : exceeds item box = true) :
  calculate_boxes_for_item q item box
    = (c ← Py.math_ceil q; Ok (c, true, 1%float))
  /\ forall SERVICES nm names client_boxes,
       let s := {| name := nm; qty := q; dimensions := item;
                   services_names := names |} in
       compute_sku_cost SERVICES s box client_boxes
         = (c ← Py.math_ceil q;
            Ok (sku_calc_formula SERVICES s c true 1%float 0%float))
       /\ forall r,
            compute_sku_cost SERVICES s box client_boxes = Ok r ->
            Py.math_ceil q = Ok (boxes r)
            /\ is_oversize r = true
            /\ items_per_box r = 1%float
            /\ boxes_cost r = 0%float.
Proof.
  assert (Hcalc : calculate_boxes_for_item q item box
                  = (c ← Py.math_ceil q; Ok (c, true, 1%float))).
  { rewrite calculate_boxes_for_item_eq. now rewrite Hover. }
  split; [exact Hcalc|].
  intros SERVICES nm names client_boxes s.
  assert (Hcost : compute_sku_cost SERVICES s box client_boxes
                  = (c ← Py.math_ceil q;
                     Ok (sku_calc_formula SERVICES s c true 1%float 0%float))).
  { rewrite compute_sku_cost_eq. cbn [qty dimensions s]. rewrite Hcalc.
    unfold mbind, result_bind, carton_cost_formula.
    destruct (Py.math_ceil q); [|reflexivity].
    now destruct client_boxes. }
  split; [exact Hcost|].
  intros r. rewrite Hcost. unfold mbind, result_bind.
  destruct (Py.math_ceil q) as [c|e]; [|discriminate].
  intros [= <-]. auto.
Qed.

Lemma oversize_item_witness :
  exceeds (70, 10, 5)%float (60, 40, 40)%float = true
  /\ calculate_boxes_for_item 12.5 (70, 10, 5)%float (60, 40, 40)%float
     = Ok (13%Z, true, 1%float).
Proof.
  split; [reflexivity|].
  destruct (oversize_item 12.5 (70, 10, 5)%float (60, 40, 40)%float eq_refl)
    as [Hcalc _].
  rewrite Hcalc. reflexivity.
Defined.

(** ** Palletization and shipping of a party *)

(** The one exception of [float(n)] is [OverflowError]. *)
Lemma float_of_int_raises (n : Z) (e : exn) :
  Py.float_of_int n = Raise e -> e = OverflowError.
Proof.
  unfold Py.float_of_int.
  destruct (PrimFloat.is_infinity _); congruence.
Qed.

Section Party.

Variable FF_WAREHOUSES : gmap string ff_rate.
Variable TK_WAREHOUSES : gmap string tk_rate.
Variable CONST : gmap string float.

Local Abbreviation threshold := (CONST_get CONST "PALLET_THRESHOLD_BOXES" 10%float).
Local Abbreviation pallet_price := (CONST_get CONST "PALLET" 0%float).
Local Abbreviation stretch_price := (CONST_get CONST "STRETCH" 0%float).
Local Abbreviation hub_per_box := (CONST_get CONST "TO_TK_PER_BOX" 100%float).

(** C3.  Let [m] be the pallet capacity [boxes_per_pallet_by_volume]
    returns for the carton.  Below the threshold
    ([PALLET_THRESHOLD_BOXES], 10 when the constants do not set it) no
    pallet is formed and the pallet and stretch costs are zero; from the
    threshold on, the pallet count is [ceil(totalBoxes / m)], the pallet
    cost is pallet count × pallet price and the stretch cost is pallet
    count × stretch price, one stretch unit per pallet.  An exception of
    the capacity computation is passed on.  With threshold 10 and the
    60×40×40 carton (capacity 16), 9 boxes give 0 pallets and 10 boxes
    give 1. *)
Theorem party_palletization_decision (n : Z) (d : dims) :
  (forall m,
     boxes_per_pallet_by_volume d = Ok m ->
     Py.int_lt_float n threshold = true ->
     party_palletization CONST n d = Ok (0%Z, m, 0%float, 0%float))
  /\ (forall m,
        boxes_per_pallet_by_volume d = Ok m ->
        Py.int_lt_float n threshold = false ->
        party_palletization CONST n d
        = (q ← Py.int_truediv n m;
           p ← Py.math_ceil q;
           pallets_cost ← Py.int_mul_float p pallet_price;
           stretch ← Py.int_mul_float p stretch_price;
           Ok (p, m, pallets_cost, stretch)))
  /\ (forall e,
        boxes_per_pallet_by_volume d = Raise e ->
        party_palletization CONST n d = Raise e)
  /\ (CONST !! "PALLET_THRESHOLD_BOXES" = None -> threshold = 10%float)
  /\ (threshold = 10%float ->
      party_palletization CONST 9 (60, 40, 40)%float
        = Ok (0%Z, 16%Z, 0%float, 0%float)
      /\ party_palletization CONST 10 (60, 40, 40)%float
         = Ok (1%Z, 16%Z, (1 * pallet_price)%float, (1 * stretch_price)%float)).
Proof.
  unfold party_palletization.
  split; [|split; [|split; [|split]]].
  - intros m Hcap Hlt. rewrite Hcap, Hlt. reflexivity.
  - intros m Hcap Hge. rewrite Hcap. unfold mbind at 1, result_bind at 1.
    now rewrite Hge.
  - intros e Hcap. now rewrite Hcap.
  - intros Hnone. unfold CONST_get. now rewrite Hnone.
  - intros ->. split; reflexivity.
Qed.

Lemma party_shipping_cost_tk (w : string) (tk : tk_rate) (n p : Z) :
  TK_WAREHOUSES !! w = Some tk ->
  party_shipping_cost FF_WAREHOUSES TK_WAREHOUSES CONST w n p
  = (c ← tk_shipping_formula hub_per_box tk n p; Ok ("tk", c)).
Proof.
  intros Htk. unfold party_shipping_cost, tk_shipping_formula, warehouse_leg.
  rewrite Htk. unfold mbind, result_bind.
  destruct (Py.int_mul_float n hub_per_box) as [to_tk|e]; [|reflexivity].
  destruct (to_warehouse_per_pallet tk) as [rate_p|], (0 <? p)%Z;
    try destruct (Py.int_mul_float p rate_p);
    try destruct (to_warehouse_per_box tk) as [rate_b|];
    try destruct (Py.int_mul_float n rate_b); reflexivity.
Qed.

(** C1.  For a warehouse of the intermediate-carrier table the shipping
    cost is [n × hubPerBoxRate], plus the warehouse leg, plus the entry
    fee once; the leg is [p × perPalletRate] when [p > 0] and a
    per-pallet rate is configured and [n × perBoxRate] otherwise.  With
    only a per-box rate and [p > 0] the per-box rate is used; with both
    rates and [p > 0] the per-pallet rate is. *)
Theorem party_shipping_cost_intermediate (w : string) (tk : tk_rate) (n p : Z)
    (Htk : TK_WAREHOUSES !! w = Some tk) :
  party_shipping_cost FF_WAREHOUSES TK_WAREHOUSES CONST w n p
    = (to_hub ← Py.int_mul_float n hub_per_box;
       leg ← warehouse_leg tk n p;
       Ok ("tk", (to_hub + leg + Py.or_zero (entry_fee tk))%float))
  /\ (forall rate_b,
        (0 < p)%Z ->
        to_warehouse_per_pallet tk = None ->
        to_warehouse_per_box tk = Some rate_b ->
        warehouse_leg tk n p = Py.int_mul_float n rate_b)
  /\ (forall rate_p,
        (0 < p)%Z ->
        to_warehouse_per_pallet tk = Some rate_p ->
        warehouse_leg tk n p = Py.int_mul_float p rate_p)
  /\ (forall rate_b,
        (p <= 0)%Z ->
        to_warehouse_per_box tk = Some rate_b ->
        warehouse_leg tk n p = Py.int_mul_float n rate_b).
Proof.
  split; [|split; [|split]].
  - rewrite (party_shipping_cost_tk w tk n p Htk).
    unfold tk_shipping_formula, mbind, result_bind.
    destruct (Py.int_mul_float n hub_per_box); [|reflexivity].
    destruct (warehouse_leg tk n p); reflexivity.
  - intros rate_b _ Hp Hb. unfold warehouse_leg. now rewrite Hp, Hb.
  - intros rate_p Hpos Hp. unfold warehouse_leg. rewrite Hp.
    apply Z.ltb_lt in Hpos. now rewrite Hpos.
  - intros rate_b Hle Hb. unfold warehouse_leg. rewrite Hb.
    apply Z.ltb_ge in Hle. rewrite Hle. now destruct (to_warehouse_per_pallet tk).
Qed.

(** C6, as the code has it.  For a warehouse of the intermediate-carrier
    table and a box count that converts to a float, the missing-rate
    error is raised exactly when no per-box rate is configured and the
    per-pallet rate cannot serve: there are no pallets or no per-pallet
    rate is configured. *)
Theorem party_shipping_cost_missing_rate (w : string) (tk : tk_rate) (n p : Z)
    (f : float)
    (Htk : TK_WAREHOUSES !! w = Some tk)
    (Hn : Py.float_of_int n = Ok f) :
  party_shipping_cost FF_WAREHOUSES TK_WAREHOUSES CONST w n p
    = Raise (RuntimeError NoRateToWarehouse)
  <-> to_warehouse_per_box tk = None
      /\ ((p <= 0)%Z \/ to_warehouse_per_pallet tk = None).
Proof.
  rewrite (party_shipping_cost_tk w tk n p Htk).
  unfold tk_shipping_formula, warehouse_leg, Py.int_mul_float.
  rewrite Hn. unfold mbind, result_bind.
  destruct (to_warehouse_per_box tk) as [rate_b|],
    (to_warehouse_per_pallet tk) as [rate_p|];
    destruct (Z.ltb_spec 0 p);
    try (destruct (Py.float_of_int p) as [fp|e] eqn:Hp';
         [|apply float_of_int_raises in Hp'; subst e]);
    (split;
     [ intros Hraise;
       first [ discriminate Hraise
             | split; [reflexivity | first [left; lia | right; reflexivity]] ]
     | intros [Hb [Hp|Hp]];
       first [ discriminate | lia | reflexivity ] ]).
Qed.

(** C7.  A warehouse that is not in the intermediate-carrier table costs
    [n × perBoxRate] when the direct-carrier table has it, whatever the
    pallet count and with no entry fee (20 boxes at 50 per box cost
    1000), and raises the unknown-warehouse error when that table lacks
    it too. *)
Theorem party_shipping_cost_direct (w : string) (n p : Z)
    (Htk : TK_WAREHOUSES !! w = None) :
  (forall r,
     FF_WAREHOUSES !! w = Some r ->
     party_shipping_cost FF_WAREHOUSES TK_WAREHOUSES CONST w n p
     = (c ← Py.int_mul_float n (ship_per_box r); Ok ("ff", c)))
  /\ (forall r,
        FF_WAREHOUSES !! w = Some r ->
        ship_per_box r = 50%float ->
        party_shipping_cost FF_WAREHOUSES TK_WAREHOUSES CONST w 20 p
        = Ok ("ff", 1000%float))
  /\ (FF_WAREHOUSES !! w = None ->
      party_shipping_cost FF_WAREHOUSES TK_WAREHOUSES CONST w n p
      = Raise (RuntimeError WarehouseNotFound)).
Proof.
  unfold party_shipping_cost. rewrite Htk.
  split; [|split].
  - intros r Hff. now rewrite Hff.
  - intros r Hff Hrate. now rewrite Hff, Hrate.
  - intros Hff. now rewrite Hff.
Qed.

End Party.

(** C10.  A warehouse name present in both tables is shipped by the
    intermediate-carrier rule: the cost is the one [tk_shipping_formula]
    gives, and it is the same whatever the direct-carrier table holds
    under that name or any other. *)
Theorem party_shipping_cost_both_tables
    (FF_WAREHOUSES : gmap string ff_rate) (TK_WAREHOUSES : gmap string tk_rate)
    (CONST : gmap string float) (w : string) (tk : tk_rate) (r : ff_rate)
    (n p : Z)
    (Htk : TK_WAREHOUSES !! w = Some tk)
    (Hff : FF_WAREHOUSES !! w = Some r) :
  party_shipping_cost FF_WAREHOUSES TK_WAREHOUSES CONST w n p
    = (c ← tk_shipping_formula (CONST_get CONST "TO_TK_PER_BOX" 100%float) tk n p;
       Ok ("tk", c))
  /\ (forall FF', party_shipping_cost FF' TK_WAREHOUSES CONST w n p
                = party_shipping_cost FF_WAREHOUSES TK_WAREHOUSES CONST w n p)
  /\ (forall c, party_shipping_cost FF_WAREHOUSES TK_WAREHOUSES CONST w n p
                <> Ok ("ff", c)).
Proof.
  split; [|split].
  - now apply party_shipping_cost_tk.
  - intros FF'. now rewrite !(party_shipping_cost_tk _ _ _ w tk n p Htk).
  - intros c. rewrite (party_shipping_cost_tk _ _ _ w tk n p Htk).
    destruct (tk_shipping_formula _ tk n p); discriminate.
Qed.

(** ** The totals of a party and the order of its line items *)

Section Report.

Variable SERVICES : gmap string service.
Variable FF_WAREHOUSES : gmap string ff_rate.
Variable TK_WAREHOUSES : gmap string tk_rate.
Variable CONST : gmap string float.

Lemma float_sum_app (t : float) (l1 l2 : list float) :
  float_sum t (l1 ++ l2) = float_sum (float_sum t l1) l2.
Proof. apply fold_left_app. Qed.

(** The first loop of [format_report] collects the cost records, adds the
    subtotals from left to right and adds the box counts. *)
Lemma sku_loop_eq (box : dims) (client_boxes : bool) (l : list sku) :
  forall cs t n,
    sku_loop SERVICES box client_boxes l (cs, t, n)
    = (calcs ← all_sku_costs SERVICES box client_boxes l;
       Ok (cs ++ calcs,
           float_sum t (map sku_total_no_ship calcs),
           (n + sum_boxes calcs)%Z)).
Proof.
  induction l as [|s l IH]; intros cs t n.
  - cbn [sku_loop all_sku_costs]. unfold mbind, result_bind, sum_boxes.
    cbn [map fold_right float_sum fold_left].
    now rewrite app_nil_r, Z.add_0_r.
  - cbn [sku_loop all_sku_costs]. unfold mbind at 1 3, result_bind at 1 3.
    destruct (compute_sku_cost SERVICES s box client_boxes) as [c|e];
      [|reflexivity].
    rewrite IH. unfold mbind, result_bind.
    destruct (all_sku_costs SERVICES box client_boxes l) as [calcs|e];
      [|reflexivity].
    unfold sum_boxes. cbn [map fold_right float_sum fold_left].
    now rewrite <- app_assoc, Z.add_assoc.
Qed.

Lemma sum_boxes_perm (cs cs' : list sku_calc) :
  Permutation cs cs' -> sum_boxes cs = sum_boxes cs'.
Proof.
  unfold sum_boxes.
  induction 1 as [|c cs cs' _ IH|c c' cs|cs1 cs2 cs3 _ IH1 _ IH2];
    cbn [map fold_right]; lia.
Qed.

(** Reordering the line items reorders their cost records and raises
    nothing new. *)
Lemma all_sku_costs_perm (box : dims) (client_boxes : bool) (l l' : list sku) :
  Permutation l l' ->
  forall cs,
    all_sku_costs SERVICES box client_boxes l = Ok cs ->
    exists cs',
      all_sku_costs SERVICES box client_boxes l' = Ok cs'
      /\ Permutation cs cs'.
Proof.
  induction 1 as [|s l l' _ IH|s s' l|l1 l2 l3 _ IH1 _ IH2]; intros cs.
  - intros [= <-]. now exists [].
  - cbn [all_sku_costs]. unfold mbind, result_bind.
    destruct (compute_sku_cost SERVICES s box client_boxes) as [c|e];
      [|discriminate].
    destruct (all_sku_costs SERVICES box client_boxes l) as [cs0|e];
      [|discriminate].
    intros [= <-]. destruct (IH cs0 eq_refl) as (cs0' & -> & Hp).
    exists (c :: cs0'). now split; [|constructor].
  - cbn [all_sku_costs]. unfold mbind, result_bind.
    destruct (compute_sku_cost SERVICES s' box client_boxes) as [c'|e];
      [|discriminate].
    destruct (compute_sku_cost SERVICES s box client_boxes) as [c|e];
      [|discriminate].
    destruct (all_sku_costs SERVICES box client_boxes l) as [cs0|e];
      [|discriminate].
    intros [= <-]. exists (c :: c' :: cs0). split; [reflexivity|constructor].
  - intros H1. destruct (IH1 cs H1) as (cs2 & H2 & Hp12).
    destruct (IH2 cs2 H2) as (cs3 & H3 & Hp23).
    exists cs3. split; [exact H3|]. now transitivity cs2.
Qed.

Lemma format_report_eq (data : party) :
  format_report SERVICES FF_WAREHOUSES TK_WAREHOUSES CONST data
  = (calcs ← all_sku_costs SERVICES (box_dims data) (use_client_boxes data)
               (skus data);
     '(p, m, pallets_cost, stretch) ←
       party_palletization CONST (sum_boxes calcs) (box_dims data);
     '(ty, shipping) ←
       party_shipping_cost FF_WAREHOUSES TK_WAREHOUSES CONST (warehouse data)
         (sum_boxes calcs) p;
     Ok {| sku_calcs := calcs;
           total_sum_no_ship := float_sum 0 (map sku_total_no_ship calcs);
           total_boxes := sum_boxes calcs;
           pallets := p;
           max_on_pallet := m;
           pallet_cost := pallets_cost;
           stretch_cost := stretch;
           ship_type := ty;
           ship_cost := shipping;
           party_total :=
             (float_sum 0 (map sku_total_no_ship calcs)
              + pallets_cost + stretch + shipping)%float |}).
Proof.
  unfold format_report. rewrite sku_loop_eq.
  unfold mbind, result_bind.
  destruct (all_sku_costs _ _ _ _) as [calcs|e]; reflexivity.
Qed.

(** C9, as the code has it.  Reordering the line items of a party that
    [format_report] prices leaves it priced, with the same total box
    count, hence the same pallet count, pallet capacity, pallet cost,
    stretch cost and shipping cost, and with the same line-item cost
    records in the new order; the grand total is the floating-point sum,
    taken in the new order, of the same subtotals, followed by the same
    pallet, stretch and shipping costs.  A party that raises still raises
    after reordering. *)
Theorem format_report_permutation (data : party) (l' : list sku)
    (Hperm : Permutation (skus data) l') :
  (forall r,
     format_report SERVICES FF_WAREHOUSES TK_WAREHOUSES CONST data = Ok r ->
     exists r',
       format_report SERVICES FF_WAREHOUSES TK_WAREHOUSES CONST
         (with_skus data l') = Ok r'
       /\ total_boxes r' = total_boxes r
       /\ pallets r' = pallets r
       /\ max_on_pallet r' = max_on_pallet r
       /\ pallet_cost r' = pallet_cost r
       /\ stretch_cost r' = stretch_cost r
       /\ ship_type r' = ship_type r
       /\ ship_cost r' = ship_cost r
       /\ Permutation (sku_calcs r) (sku_calcs r')
       /\ party_total r'
          = (float_sum 0 (map sku_total_no_ship (sku_calcs r'))
             + pallet_cost r + stretch_cost r + ship_cost r)%float)
  /\ is_ok (format_report SERVICES FF_WAREHOUSES TK_WAREHOUSES CONST
              (with_skus data l'))
     = is_ok (format_report SERVICES FF_WAREHOUSES TK_WAREHOUSES CONST data).
Proof.
  assert (Hok : forall d1 d2 r,
    Permutation (skus d1) (skus d2) ->
    warehouse d2 = warehouse d1 ->
    use_client_boxes d2 = use_client_boxes d1 ->
    box_dims d2 = box_dims d1 ->
    format_report SERVICES FF_WAREHOUSES TK_WAREHOUSES CONST d1 = Ok r ->
    exists r',
      format_report SERVICES FF_WAREHOUSES TK_WAREHOUSES CONST d2 = Ok r'
      /\ total_boxes r' = total_boxes r
      /\ pallets r' = pallets r
      /\ max_on_pallet r' = max_on_pallet r
      /\ pallet_cost r' = pallet_cost r
      /\ stretch_cost r' = stretch_cost r
      /\ ship_type r' = ship_type r
      /\ ship_cost r' = ship_cost r
      /\ Permutation (sku_calcs r) (sku_calcs r')
      /\ party_total r'
         = (float_sum 0 (map sku_total_no_ship (sku_calcs r'))
            + pallet_cost r + stretch_cost r + ship_cost r)%float).
  { intros d1 d2 r Hp Hw Hc Hb. rewrite !format_report_eq, Hw, Hc, Hb.
    destruct (all_sku_costs SERVICES (box_dims d1) (use_client_boxes d1)
                (skus d1)) as [calcs|e] eqn:Hcalcs; [|discriminate].
    destruct (all_sku_costs_perm _ _ _ _ Hp calcs Hcalcs)
      as (calcs' & -> & Hpc).
    unfold mbind, result_bind. rewrite <- (sum_boxes_perm _ _ Hpc).
    destruct (party_palletization CONST (sum_boxes calcs) (box_dims d1))
      as [[[[p m] pc] sc]|e]; [|discriminate].
    destruct (party_shipping_cost FF_WAREHOUSES TK_WAREHOUSES CONST
                (warehouse d1) (sum_boxes calcs) p) as [[ty sh]|e];
      [|discriminate].
    intros [= <-]. eexists. split; [reflexivity|].
    cbn. auto 12. }
  split.
  - intros r Hr. now apply (Hok data (with_skus data l') r).
  - destruct (format_report SERVICES FF_WAREHOUSES TK_WAREHOUSES CONST data)
      as [r|e] eqn:Hr.
    + destruct (Hok data (with_skus data l') r Hperm eq_refl eq_refl eq_refl Hr)
        as (r' & -> & _). reflexivity.
    + destruct (format_report SERVICES FF_WAREHOUSES TK_WAREHOUSES CONST
                  (with_skus data l')) as [r'|e'] eqn:Hr'; [|reflexivity].
      destruct (Hok (with_skus data l') data r' (Permutation_sym Hperm)
                  eq_refl eq_refl eq_refl Hr') as (r & Hr2 & _).
      congruence.
Qed.

End Report.

(** ** The engine on the small catalog *)

Lemma party_palletization_decision_witness :
  boxes_per_pallet_by_volume (40, 30, 30)%float = Ok 42%Z
  /\ Py.int_lt_float 100 (CONST_get demo_const "PALLET_THRESHOLD_BOXES" 10%float)
     = false
  /\ party_palletization demo_const 100 (40, 30, 30)%float
     = Ok (3%Z, 42%Z, 900%float, 450%float).
Proof.
  split; [reflexivity|]. split; [reflexivity|].
  destruct (party_palletization_decision demo_const 100 (40, 30, 30)%float)
    as (_ & Hge & _).
  rewrite (Hge 42%Z eq_refl eq_refl). reflexivity.
Defined.

Lemma party_shipping_cost_intermediate_witness :
  demo_tk !! "Коледино" = Some both_rates
  /\ party_shipping_cost demo_ff demo_tk demo_const "Коледино" 20 2
     = Ok ("tk", 3200%float).
Proof.
  split; [reflexivity|].
  destruct (party_shipping_cost_intermediate demo_ff demo_tk demo_const
              "Коледино" both_rates 20 2 eq_refl) as [Hcost _].
  rewrite Hcost. reflexivity.
Defined.

Lemma party_shipping_cost_missing_rate_witness :
  demo_tk !! "Казань" = Some pallet_only
  /\ Py.float_of_int 5 = Ok 5%float
  /\ party_shipping_cost demo_ff demo_tk demo_const "Казань" 5 0
     = Raise (RuntimeError NoRateToWarehouse).
Proof.
  split; [reflexivity|]. split; [reflexivity|].
  apply (party_shipping_cost_missing_rate demo_ff demo_tk demo_const
           "Казань" pallet_only 5 0 5%float eq_refl eq_refl).
  split; [reflexivity|]. left. discriminate.
Defined.

(** C6 as the specification words it fails on a warehouse that has a
    per-pallet rate and no per-box rate when the party forms no pallet:
    the error is raised although one of the two rates is configured. *)
Lemma missing_rate_with_pallet_rate_configured :
  demo_tk !! "Казань" = Some pallet_only
  /\ to_warehouse_per_box pallet_only = None
  /\ to_warehouse_per_pallet pallet_only = Some 500%float
  /\ party_shipping_cost demo_ff demo_tk demo_const "Казань" 5 0
     = Raise (RuntimeError NoRateToWarehouse).
Proof. repeat split. Qed.

Lemma party_shipping_cost_direct_witness :
  demo_tk !! "Подольск" = None
  /\ demo_ff !! "Подольск" = Some {| ship_per_box := 50 |}
  /\ party_shipping_cost demo_ff demo_tk demo_const "Подольск" 20 2
     = Ok ("ff", 1000%float).
Proof.
  split; [reflexivity|]. split; [reflexivity|].
  destruct (party_shipping_cost_direct demo_ff demo_tk demo_const
              "Подольск" 20 2 eq_refl) as (_ & Hfifty & _).
  now apply (Hfifty {| ship_per_box := 50 |}).
Defined.

Lemma party_shipping_cost_both_tables_witness :
  demo_tk !! "Коледино" = Some both_rates
  /\ demo_ff !! "Коледино" = Some {| ship_per_box := 50 |}
  /\ party_shipping_cost ∅ demo_tk demo_const "Коледино" 5 0
     = party_shipping_cost demo_ff demo_tk demo_const "Коледино" 5 0.
Proof.
  split; [reflexivity|]. split; [reflexivity|].
  destruct (party_shipping_cost_both_tables demo_ff demo_tk demo_const
              "Коледино" both_rates {| ship_per_box := 50 |} 5 0
              eq_refl eq_refl) as (_ & Hsame & _).
  apply Hsame.
Defined.

Lemma format_report_permutation_witness :
  Permutation (skus (demo_party [demo_sku "A"; demo_sku "B"; demo_sku "C"]))
    [demo_sku "A"; demo_sku "C"; demo_sku "B"]
  /\ is_ok (format_report demo_services demo_ff demo_tk demo_const
             (with_skus (demo_party [demo_sku "A"; demo_sku "B"; demo_sku "C"])
                [demo_sku "A"; demo_sku "C"; demo_sku "B"]))
     = is_ok (format_report demo_services demo_ff demo_tk demo_const
                (demo_party [demo_sku "A"; demo_sku "B"; demo_sku "C"])).
Proof.
  assert (Hperm : Permutation
            (skus (demo_party [demo_sku "A"; demo_sku "B"; demo_sku "C"]))
            [demo_sku "A"; demo_sku "C"; demo_sku "B"]).
  { cbn [skus demo_party]. apply perm_skip, perm_swap. }
  split; [exact Hperm|].
  exact (proj2 (format_report_permutation demo_services demo_ff demo_tk
                  demo_const _ _ Hperm)).
Defined.

(** C9 as the specification words it fails for the grand total: three
    line items with subtotals 110.1, 110.2 and 110.3 add up to 480.6 in
    one order and to 480.59999999999997 in another, floating-point
    addition not being associative. *)
Lemma grand_total_depends_on_order :
  Permutation [demo_sku "A"; demo_sku "B"; demo_sku "C"]
    [demo_sku "A"; demo_sku "C"; demo_sku "B"]
  /\ grand_total demo_services demo_ff demo_tk demo_const
       (demo_party [demo_sku "A"; demo_sku "B"; demo_sku "C"])
     = Ok 480.6%float
  /\ grand_total demo_services demo_ff demo_tk demo_const
       (demo_party [demo_sku "A"; demo_sku "C"; demo_sku "B"])
     = Ok 480.59999999999997%float
  /\ (480.6 =? 480.59999999999997)%float = false.
Proof.
  split; [apply perm_skip, perm_swap|].
  repeat split; vm_compute; reflexivity.
Qed.

(** ** The request to the manager and the report *)

Lemma manager_loop_eq (SERVICES : gmap string service) (box : dims)
    (client_boxes : bool) (l : list sku) :
  forall t n,
    manager_loop SERVICES box client_boxes l (t, n)
    = (calcs ← all_sku_costs SERVICES box client_boxes l;
       Ok (float_sum t (map sku_total_no_ship calcs), (n + sum_boxes calcs)%Z)).
Proof.
  induction l as [|s l IH]; intros t n.
  - cbn [manager_loop all_sku_costs]. unfold mbind, result_bind, sum_boxes.
    cbn [map fold_right float_sum fold_left]. now rewrite Z.add_0_r.
  - cbn [manager_loop all_sku_costs]. unfold mbind at 1 3, result_bind at 1 3.
    destruct (compute_sku_cost SERVICES s box client_boxes) as [c|e];
      [|reflexivity].
    rewrite IH. unfold mbind, result_bind.
    destruct (all_sku_costs SERVICES box client_boxes l) as [calcs|e];
      [|reflexivity].
    unfold sum_boxes. cbn [map fold_right float_sum fold_left].
    now rewrite Z.add_assoc.
Qed.

Lemma format_manager_request_eq
    (SERVICES : gmap string service) (FF_WAREHOUSES : gmap string ff_rate)
    (TK_WAREHOUSES : gmap string tk_rate) (CONST : gmap string float)
    (data : party) :
  format_manager_request SERVICES FF_WAREHOUSES TK_WAREHOUSES CONST data
  = (r ← format_report SERVICES FF_WAREHOUSES TK_WAREHOUSES CONST data;
     Ok (report_as_request r)).
Proof.
  rewrite format_report_eq. unfold format_manager_request.
  rewrite manager_loop_eq. unfold mbind, result_bind.
  destruct (all_sku_costs _ _ _ _) as [calcs|e]; [|reflexivity].
  rewrite Z.add_0_l.
  destruct (party_palletization CONST (sum_boxes calcs) (box_dims data))
    as [[[[p m] pc] sc]|e]; [|reflexivity].
  destruct (party_shipping_cost _ _ _ _ _ _) as [[ty sh]|e]; reflexivity.
Qed.

(** X1.  The request sent to the manager carries the totals of the
    report shown to the customer: for every catalog and party,
    [format_manager_request] computes the same sum of subtotals, box
    count, pallet count and capacity, pallet, stretch and shipping costs
    and grand total as [format_report], and raises the same exception
    when [format_report] raises. *)
Theorem format_manager_request_agrees
    (SERVICES : gmap string service) (FF_WAREHOUSES : gmap string ff_rate)
    (TK_WAREHOUSES : gmap string tk_rate) (CONST : gmap string float)
    (data : party) :
  match format_report SERVICES FF_WAREHOUSES TK_WAREHOUSES CONST data with
  | Ok r =>
      exists m,
        format_manager_request SERVICES FF_WAREHOUSES TK_WAREHOUSES CONST data
        = Ok m
        /\ m_total_sum_no_ship m = total_sum_no_ship r
        /\ m_total_boxes m = total_boxes r
        /\ m_pallets m = pallets r
        /\ m_max_on_pallet m = max_on_pallet r
        /\ m_pallet_cost m = pallet_cost r
        /\ m_stretch_cost m = stretch_cost r
        /\ m_ship_type m = ship_type r
        /\ m_ship_cost m = ship_cost r
        /\ m_party_total m = party_total r
  | Raise e =>
      format_manager_request SERVICES FF_WAREHOUSES TK_WAREHOUSES CONST data
      = Raise e
  end.
Proof.
  rewrite format_manager_request_eq.
  destruct (format_report _ _ _ _ data) as [r|e]; [|reflexivity].
  exists (report_as_request r). repeat split.
Qed.

(** ** Exceptions of the engine *)

Lemma not_leb_zero_not_zero (x : float) :
  (x <=? 0)%float = false -> (x =? 0)%float = false.
Proof.
  rewrite FloatAxioms.leb_spec, FloatAxioms.eqb_spec, Prim2SF_zero.
  unfold SFleb, SFeqb, SFcompare.
  destruct (Prim2SF x) as [s|s| |s m e]; try destruct s; congruence.
Qed.

Lemma zero_below_one (r : float) :
  (r =? 0)%float = true -> (r <? 1)%float = true.
Proof.
  rewrite FloatAxioms.eqb_spec, FloatAxioms.ltb_spec, Prim2SF_zero, Prim2SF_one.
  unfold SFeqb, SFltb, SFcompare.
  destruct (Prim2SF r) as [s|s| |s m e]; try destruct s; congruence.
Qed.

Lemma clamp_one_not_zero (r : float) : (clamp_one r =? 0)%float = false.
Proof.
  unfold clamp_one. destruct (r <? 1)%float eqn:Hlt; [reflexivity|].
  destruct (r =? 0)%float eqn:Hz; [|reflexivity].
  apply zero_below_one in Hz. congruence.
Qed.

Lemma float_truediv_ok (x y : float) :
  (y =? 0)%float = false -> Py.float_truediv x y = Ok (x / y)%float.
Proof. intros Hy. unfold Py.float_truediv. now rewrite Hy. Qed.

Lemma math_ceil_raises (x : float) (e : exn) :
  Py.math_ceil x = Raise e -> e = ValueError \/ e = OverflowError.
Proof.
  unfold Py.math_ceil.
  destruct (Prim2SF x); intros H; try discriminate H;
    injection H as <-; auto.
Qed.

Lemma math_floor_raises (x : float) (e : exn) :
  Py.math_floor x = Raise e -> e = ValueError \/ e = OverflowError.
Proof.
  unfold Py.math_floor.
  destruct (Prim2SF x); intros H; try discriminate H;
    injection H as <-; auto.
Qed.

Lemma int_mul_float_raises (n : Z) (x : float) (e : exn) :
  Py.int_mul_float n x = Raise e -> e = OverflowError.
Proof.
  unfold Py.int_mul_float, mbind, result_bind.
  destruct (Py.float_of_int n) eqn:Hn; [discriminate|].
  intros [= <-]. now apply float_of_int_raises in Hn.
Qed.

Lemma int_truediv_raises (n m : Z) (e : exn) :
  m <> 0%Z -> Py.int_truediv n m = Raise e -> e = OverflowError.
Proof.
  intros Hm. unfold Py.int_truediv.
  destruct (Z.eqb_spec m 0); [contradiction|].
  destruct (n =? 0)%Z; [discriminate|].
  destruct (SFdiv_core_binary _ _ _ _ _ _) as [[q e'] l].
  destruct (PrimFloat.is_infinity _); congruence.
Qed.

(** The pallet capacity is never below 1. *)
Lemma boxes_per_pallet_by_volume_cases (d : dims) :
  match boxes_per_pallet_by_volume d with
  | Ok m => (1 <= m)%Z
  | Raise e => e = ValueError \/ e = OverflowError
  end.
Proof.
  rewrite boxes_per_pallet_by_volume_eq.
  destruct (vol d <=? 0)%float eqn:Hv; [lia|].
  unfold pallet_capacity_formula.
  rewrite (float_truediv_ok _ _ (not_leb_zero_not_zero _ Hv)).
  unfold mbind, result_bind.
  destruct (Py.math_floor _) as [m|e] eqn:Hf; [lia|].
  now apply math_floor_raises in Hf.
Qed.

Lemma items_per_box_formula_ok (item box : dims) :
  exists per_box,
    items_per_box_formula item box = Ok per_box
    /\ (per_box =? 0)%float = false.
Proof.
  unfold items_per_box_formula.
  destruct (vol item <=? 0)%float eqn:Hv.
  - now exists 1%float.
  - rewrite (float_truediv_ok _ _ (not_leb_zero_not_zero _ Hv)).
    eexists. split; [reflexivity|]. apply clamp_one_not_zero.
Qed.

Lemma calculate_boxes_for_item_raises (q : float) (item box : dims) (e : exn) :
  calculate_boxes_for_item q item box = Raise e ->
  e = ValueError \/ e = OverflowError.
Proof.
  rewrite calculate_boxes_for_item_eq.
  destruct (exceeds item box).
  - unfold mbind, result_bind.
    destruct (Py.math_ceil q) eqn:Hc; [discriminate|].
    intros [= <-]. now apply math_ceil_raises in Hc.
  - destruct (items_per_box_formula_ok item box) as (per_box & -> & Hnz).
    unfold mbind, result_bind, box_count_formula.
    rewrite (float_truediv_ok _ _ Hnz). unfold mbind, result_bind.
    destruct (Py.math_ceil _) eqn:Hc; [discriminate|].
    intros [= <-]. now apply math_ceil_raises in Hc.
Qed.

Lemma compute_sku_cost_raises (SERVICES : gmap string service) (s : sku)
    (box : dims) (client_boxes : bool) (e : exn) :
  compute_sku_cost SERVICES s box client_boxes = Raise e ->
  e = ValueError \/ e = OverflowError.
Proof.
  rewrite compute_sku_cost_eq.
  destruct (calculate_boxes_for_item _ _ _) as [[[b ov] per_box]|e'] eqn:Hc.
  - unfold mbind, result_bind, carton_cost_formula.
    destruct (client_boxes || ov); [discriminate|].
    destruct (Py.int_mul_float b BOX_PRICE) eqn:Hm; [discriminate|].
    intros [= <-]. apply int_mul_float_raises in Hm. auto.
  - intros [= <-]. now apply calculate_boxes_for_item_raises in Hc.
Qed.

Lemma all_sku_costs_raises (SERVICES : gmap string service) (box : dims)
    (client_boxes : bool) (l : list sku) (e : exn) :
  all_sku_costs SERVICES box client_boxes l = Raise e ->
  e = ValueError \/ e = OverflowError.
Proof.
  induction l as [|s l IH]; [discriminate|].
  cbn [all_sku_costs]. unfold mbind, result_bind.
  destruct (compute_sku_cost SERVICES s box client_boxes) eqn:Hc.
  - destruct (all_sku_costs SERVICES box client_boxes l); [discriminate|].
    intros [= <-]. now apply IH.
  - intros [= <-]. now apply compute_sku_cost_raises in Hc.
Qed.

Lemma party_palletization_raises (CONST : gmap string float) (n : Z)
    (d : dims) (e : exn) :
  party_palletization CONST n d = Raise e ->
  e = ValueError \/ e = OverflowError.
Proof.
  unfold party_palletization.
  pose proof (boxes_per_pallet_by_volume_cases d) as Hcap.
  destruct (boxes_per_pallet_by_volume d) as [m|e'].
  - unfold mbind, result_bind.
    destruct (Py.int_lt_float n _); [discriminate|].
    destruct (Py.int_truediv n m) as [q|e1] eqn:Hq.
    + destruct (Py.math_ceil q) as [p|e2] eqn:Hp.
      * destruct (Py.int_mul_float p _) eqn:H1.
        -- destruct (Py.int_mul_float p (CONST_get CONST "STRETCH" 0)) eqn:H2;
             [discriminate|].
           intros [= <-]. apply int_mul_float_raises in H2. auto.
        -- intros [= <-]. apply int_mul_float_raises in H1. auto.
      * intros [= <-]. now apply math_ceil_raises in Hp.
    + intros [= <-]. apply int_truediv_raises in Hq; [auto|lia].
  - intros [= <-]. exact Hcap.
Qed.

Lemma party_shipping_cost_raises (FF_WAREHOUSES : gmap string ff_rate)
    (TK_WAREHOUSES : gmap string tk_rate) (CONST : gmap string float)
    (w : string) (n p : Z) (e : exn) :
  party_shipping_cost FF_WAREHOUSES TK_WAREHOUSES CONST w n p = Raise e ->
  e = OverflowError \/ exists msg, e = RuntimeError msg.
Proof.
  unfold party_shipping_cost.
  destruct (TK_WAREHOUSES !! w) as [tk|].
  - unfold mbind, result_bind.
    destruct (Py.int_mul_float n _) eqn:H1.
    + destruct (0 <? p)%Z, (to_warehouse_per_pallet tk) as [rp|];
        try (destruct (Py.int_mul_float p rp) eqn:H2;
             [discriminate|intros [= <-]; apply int_mul_float_raises in H2; auto]);
        (destruct (to_warehouse_per_box tk) as [rb|];
         [ destruct (Py.int_mul_float n rb) eqn:H3;
           [discriminate|intros [= <-]; apply int_mul_float_raises in H3; auto]
         | intros [= <-]; eauto ]).
    + intros [= <-]. apply int_mul_float_raises in H1. auto.
  - destruct (FF_WAREHOUSES !! w) as [r|].
    + unfold mbind, result_bind.
      destruct (Py.int_mul_float n _) eqn:H1; [discriminate|].
      intros [= <-]. apply int_mul_float_raises in H1. auto.
    + intros [= <-]. eauto.
Qed.

(** X2.  The engine never divides by zero: whatever the catalog and the
    party, [format_report] returns or raises [ValueError], [OverflowError]
    or one of the two [RuntimeError]s of shipping, and the same holds of
    [format_manager_request]; the packing and pricing of a line item
    raise nothing but [ValueError] and [OverflowError]. *)
Theorem engine_exceptions
    (SERVICES : gmap string service) (FF_WAREHOUSES : gmap string ff_rate)
    (TK_WAREHOUSES : gmap string tk_rate) (CONST : gmap string float) :
  (forall data e,
     format_report SERVICES FF_WAREHOUSES TK_WAREHOUSES CONST data = Raise e ->
     e = ValueError \/ e = OverflowError \/ exists msg, e = RuntimeError msg)
  /\ (forall data e,
        format_manager_request SERVICES FF_WAREHOUSES TK_WAREHOUSES CONST data
        = Raise e ->
        e = ValueError \/ e = OverflowError \/ exists msg, e = RuntimeError msg)
  /\ (forall s box client_boxes e,
        compute_sku_cost SERVICES s box client_boxes = Raise e ->
        e = ValueError \/ e = OverflowError)
  /\ (forall q item box e,
        calculate_boxes_for_item q item box = Raise e ->
        e = ValueError \/ e = OverflowError).
Proof.
  assert (Hreport : forall data e,
    format_report SERVICES FF_WAREHOUSES TK_WAREHOUSES CONST data = Raise e ->
    e = ValueError \/ e = OverflowError \/ exists msg, e = RuntimeError msg).
  { intros data e. rewrite format_report_eq. unfold mbind, result_bind.
    destruct (all_sku_costs _ _ _ _) as [calcs|e1] eqn:H1.
    - destruct (party_palletization _ _ _) as [[[[p m] pc] sc]|e2] eqn:H2.
      + destruct (party_shipping_cost _ _ _ _ _ _) as [[ty sh]|e3] eqn:H3;
          [discriminate|].
        intros [= <-]. apply party_shipping_cost_raises in H3. tauto.
      + intros [= <-]. apply party_palletization_raises in H2. tauto.
    - intros [= <-]. apply all_sku_costs_raises in H1. tauto. }
  split; [exact Hreport|]. split.
  - intros data e. rewrite format_manager_request_eq.
    unfold mbind, result_bind.
    destruct (format_report _ _ _ _ data) eqn:Hr; [discriminate|].
    intros [= <-]. now apply Hreport in Hr.
  - split.
    + intros s box client_boxes e. apply compute_sku_cost_raises.
    + intros q item box e. apply calculate_boxes_for_item_raises.
Qed.

Lemma engine_exceptions_witness :
  format_report demo_services demo_ff demo_tk demo_const
    (with_skus (demo_party [])
       [{| name := "x"; qty := infinity; dimensions := (70, 10, 5)%float;
           services_names := [] |}])
  = Raise OverflowError.
Proof.
  destruct (engine_exceptions demo_services demo_ff demo_tk demo_const)
    as (Hreport & _).
  destruct (format_report _ _ _ _ _) as [r|e] eqn:Hr; [discriminate Hr|].
  destruct (Hreport _ e Hr) as [->| [->|[msg ->]]];
    first [reflexivity | discriminate Hr].
Defined.

(** X3.  The pallet capacity is at least 1 whenever it is computed, also
    for a carton of zero, negative or enormous volume; so is the capacity
    [party_palletization] reports. *)
Theorem pallet_capacity_at_least_one (d : dims) (m : Z)
    (Hcap : boxes_per_pallet_by_volume d = Ok m) :
  (1 <= m)%Z
  /\ forall CONST n p m' pallets_cost stretch,
       party_palletization CONST n d = Ok (p, m', pallets_cost, stretch) ->
       m' = m.
Proof.
  pose proof (boxes_per_pallet_by_volume_cases d) as Hcases.
  rewrite Hcap in Hcases. split; [exact Hcases|].
  intros CONST n p m' pc sc. unfold party_palletization. rewrite Hcap.
  unfold mbind, result_bind.
  destruct (Py.int_lt_float n _); [congruence|].
  destruct (Py.int_truediv n m); [|discriminate].
  destruct (Py.math_ceil _) as [p'|]; [|discriminate].
  destruct (Py.int_mul_float p' _); [|discriminate].
  destruct (Py.int_mul_float p' _); [|discriminate].
  congruence.
Qed.

Lemma pallet_capacity_at_least_one_witness :
  boxes_per_pallet_by_volume (1000, 1000, 1000)%float = Ok 1%Z /\ (1 <= 1)%Z.
Proof.
  split; [reflexivity|].
  now apply (pallet_capacity_at_least_one (1000, 1000, 1000)%float 1).
Defined.

(** ** Quantities that are not numbers *)

Lemma ceil_of_quotient_not_finite (q y : float) :
  q = nan \/ q = infinity ->
  (y =? 0)%float = false ->
  exists e, box_count_formula q y = Raise e.
Proof.
  intros Hq Hy. unfold box_count_formula.
  rewrite (float_truediv_ok _ _ Hy). unfold mbind, result_bind, Py.math_ceil.
  rewrite FloatAxioms.div_spec.
  destruct Hq as [-> | ->].
  - change (Prim2SF nan) with S754_nan.
    destruct (Prim2SF y) as [s|s| |s m e]; cbn; eauto.
  - change (Prim2SF infinity) with (S754_infinity false).
    destruct (Prim2SF y) as [s|s| |s m e]; cbn; eauto.
Qed.

Lemma calculate_boxes_for_item_not_finite (q : float) (item box : dims) :
  q = nan \/ q = infinity ->
  exists e, calculate_boxes_for_item q item box = Raise e.
Proof.
  intros Hq. rewrite calculate_boxes_for_item_eq.
  destruct (exceeds item box).
  - destruct Hq as [-> | ->]; eexists; reflexivity.
  - destruct (items_per_box_formula_ok item box) as (per_box & -> & Hnz).
    unfold mbind at 1, result_bind at 1.
    destruct (ceil_of_quotient_not_finite q per_box Hq Hnz) as (e & ->).
    now exists e.
Qed.

Lemma all_sku_costs_one_raises (SERVICES : gmap string service) (box : dims)
    (client_boxes : bool) (l : list sku) (s : sku) :
  In s l ->
  (exists e, compute_sku_cost SERVICES s box client_boxes = Raise e) ->
  exists e, all_sku_costs SERVICES box client_boxes l = Raise e.
Proof.
  intros Hin Hs. induction l as [|s' l IH]; [destruct Hin|].
  cbn [all_sku_costs]. unfold mbind, result_bind.
  destruct (compute_sku_cost SERVICES s' box client_boxes) as [c|e] eqn:Hc;
    [|now exists e].
  destruct Hin as [-> | Hin].
  - destruct Hs as (e & He). congruence.
  - destruct (IH Hin) as (e & ->). now exists e.
Qed.

(** X4.  The quantity check of the dialogue rejects a text whose number
    is [<= 0], which NaN and +infinity are not: a text that [float] reads
    as either is accepted as a quantity.  No item with such a quantity
    can be packed or priced, whatever its dimensions and the carton: the
    packing raises, and so does the report of every party that holds
    such a line item. *)
Theorem quantity_not_finite (str_lower : string -> string)
    (py_float : string -> option float) (q : float)
    (Hq : q = nan \/ q = infinity) :
  (forall text,
     String.eqb (str_lower (Str.strip text)) "назад" = false ->
     py_float (Str.replace "," "." (Str.strip text)) = Some q ->
     sku_qty str_lower py_float text = QtyAccepted q)
  /\ (forall item box, exists e, calculate_boxes_for_item q item box = Raise e)
  /\ (forall SERVICES s box client_boxes,
        qty s = q ->
        exists e, compute_sku_cost SERVICES s box client_boxes = Raise e)
  /\ (forall SERVICES FF_WAREHOUSES TK_WAREHOUSES CONST data s,
        In s (skus data) ->
        qty s = q ->
        exists e,
          format_report SERVICES FF_WAREHOUSES TK_WAREHOUSES CONST data
          = Raise e).
Proof.
  assert (Hsku : forall SERVICES s box client_boxes,
            qty s = q ->
            exists e, compute_sku_cost SERVICES s box client_boxes = Raise e).
  { intros SERVICES s box client_boxes Hs. rewrite compute_sku_cost_eq, Hs.
    destruct (calculate_boxes_for_item_not_finite q (dimensions s) box Hq)
      as (e & ->).
    now exists e. }
  split; [|split; [|split]].
  - intros text Hback Hfloat. unfold sku_qty. rewrite Hback, Hfloat.
    now destruct Hq as [-> | ->].
  - intros item box. now apply calculate_boxes_for_item_not_finite.
  - exact Hsku.
  - intros SERVICES FF TK CONST data s Hin Hs. rewrite format_report_eq.
    destruct (all_sku_costs_one_raises SERVICES (box_dims data)
                (use_client_boxes data) (skus data) s Hin
                (Hsku SERVICES s _ _ Hs)) as (e & ->).
    now exists e.
Qed.

Lemma quantity_not_finite_witness :
  (infinity = nan \/ infinity = infinity)
  /\ sku_qty ascii_lower sample_float " inf " = QtyAccepted infinity.
Proof.
  split; [now right|].
  destruct (quantity_not_finite ascii_lower sample_float infinity
              (or_intror eq_refl)) as (Haccept & _).
  now apply Haccept.
Defined.

(** ** The selectable warehouses *)

Lemma elem_of_WAREHOUSE_NAMES (FF_WAREHOUSES : gmap string ff_rate)
    (TK_WAREHOUSES : gmap string tk_rate) (w : string) :
  w ∈ WAREHOUSE_NAMES FF_WAREHOUSES TK_WAREHOUSES
  <-> is_Some (FF_WAREHOUSES !! w) \/ is_Some (TK_WAREHOUSES !! w).
Proof.
  unfold WAREHOUSE_NAMES. rewrite merge_sort_Permutation.
  rewrite elem_of_elements, elem_of_union, !elem_of_dom. reflexivity.
Qed.


(** X6.  [WAREHOUSE_NAMES] lists every name once and in ascending order,
    and it is empty, which stops the program at start-up, exactly when
    both rate tables are empty. *)
Theorem warehouse_names_sorted (FF_WAREHOUSES : gmap string ff_rate)
    (TK_WAREHOUSES : gmap string tk_rate) :
  NoDup (WAREHOUSE_NAMES FF_WAREHOUSES TK_WAREHOUSES)
  /\ StronglySorted String.le (WAREHOUSE_NAMES FF_WAREHOUSES TK_WAREHOUSES)
  /\ (WAREHOUSE_NAMES FF_WAREHOUSES TK_WAREHOUSES = []
      <-> FF_WAREHOUSES = ∅ /\ TK_WAREHOUSES = ∅).
Proof.
  split; [|split].
  - unfold WAREHOUSE_NAMES. rewrite merge_sort_Permutation.
    apply NoDup_elements.
  - apply (StronglySorted_merge_sort String.le).
  - split.
    + intros Hnil. split; apply map_eq; intros w; rewrite lookup_empty;
        destruct (_ !! w) eqn:Hw; try reflexivity; exfalso;
        apply (not_elem_of_nil w); rewrite <- Hnil;
        apply elem_of_WAREHOUSE_NAMES; eauto.
    + intros [-> ->]. reflexivity.
Qed.

(** ** Facts about texts *)

Lemma string_app_nil_r (s : string) : s +:+ "" = s.
Proof.
  induction s as [|a s IH]; [reflexivity|].
  change (String a (s +:+ "") = String a s). now rewrite IH.
Qed.

Lemma string_app_assoc (s1 s2 s3 : string) :
  (s1 +:+ s2) +:+ s3 = s1 +:+ (s2 +:+ s3).
Proof.
  induction s1 as [|a s1 IH]; [reflexivity|].
  change (String a ((s1 +:+ s2) +:+ s3) = String a (s1 +:+ (s2 +:+ s3))).
  now rewrite IH.
Qed.

Lemma string_app_length (s1 s2 : string) :
  String.length (s1 +:+ s2) = (String.length s1 + String.length s2)%nat.
Proof.
  induction s1 as [|a s1 IH]; [reflexivity|].
  change (S (String.length (s1 +:+ s2))
          = S (String.length s1 + String.length s2)).
  now rewrite IH.
Qed.

Lemma string_app_cons (a : Ascii.ascii) (s t : string) :
  String a s +:+ t = String a (s +:+ t).
Proof. reflexivity. Qed.

Lemma prefix_cons (a b : Ascii.ascii) (p s : string) :
  String.prefix (String a p) (String b s)
  = if Ascii.ascii_dec a b then String.prefix p s else false.
Proof. reflexivity. Qed.

(** [p] is a prefix of [s] when [s] is [p] followed by something. *)
Lemma prefix_app_iff (p s : string) :
  String.prefix p s = true <-> exists t, s = p +:+ t.
Proof.
  revert s. induction p as [|a p IH]; intros s.
  - split; [intros _; now exists s|]. now destruct s.
  - destruct s as [|b s].
    + split; [discriminate|]. intros (t & Ht). discriminate Ht.
    + rewrite prefix_cons. destruct (Ascii.ascii_dec a b) as [->|Hne].
      * rewrite IH. split; intros (t & Ht); exists t;
          rewrite string_app_cons in *; congruence.
      * split; [discriminate|]. intros (t & Ht).
        rewrite string_app_cons in Ht. congruence.
Qed.

Lemma prefix_drop (p s : string) :
  String.prefix p s = true -> s = p +:+ Str.drop (String.length p) s.
Proof.
  revert s. induction p as [|a p IH]; intros s; [reflexivity|].
  destruct s as [|b s]; [discriminate|].
  rewrite prefix_cons. destruct (Ascii.ascii_dec a b) as [->|]; [|discriminate].
  intros Hp. change (String b s = String b (p +:+ Str.drop (String.length p) s)).
  now rewrite <- (IH s Hp).
Qed.

(** [sub in s] when [s] is something, [sub], something. *)
Lemma contains_iff (sub s : string) :
  Str.contains sub s = true <-> exists x y, s = x +:+ sub +:+ y.
Proof.
  induction s as [|a s IH]; cbn [Str.contains].
  - rewrite orb_false_r, prefix_app_iff. split.
    + intros (t & Ht). now exists "", t.
    + intros (x & y & Hxy). destruct x; [now exists y|discriminate].
  - rewrite orb_true_iff, IH, prefix_app_iff. split.
    + intros [(t & Ht)|(x & y & Hxy)].
      * now exists "", t.
      * exists (String a x), y. rewrite string_app_cons. now rewrite Hxy.
    + intros (x & y & Hxy). destruct x as [|b x].
      * left. now exists y.
      * right. exists x, y. rewrite string_app_cons in Hxy. congruence.
Qed.

Lemma contains_app_l (sub s t : string) :
  Str.contains sub s = true -> Str.contains sub (s +:+ t) = true.
Proof.
  rewrite !contains_iff. intros (x & y & ->). exists x, (y +:+ t).
  now rewrite !string_app_assoc.
Qed.

Lemma contains_app_r (sub s t : string) :
  Str.contains sub t = true -> Str.contains sub (s +:+ t) = true.
Proof.
  rewrite !contains_iff. intros (x & y & ->). exists (s +:+ x), y.
  now rewrite !string_app_assoc.
Qed.

(** The part before the first separator is a prefix and holds no
    separator. *)
Lemma before_prefix (sep s : string) :
  exists t, s = Str.before sep s +:+ t.
Proof.
  induction s as [|a s (t & IH)]; cbn [Str.before].
  - destruct (String.prefix sep ""); now exists "".
  - destruct (String.prefix sep (String a s)).
    + now exists (String a s).
    + exists t. rewrite string_app_cons. now rewrite <- IH.
Qed.

Lemma before_no_separator (sep s : string) :
  sep <> "" -> Str.contains sep (Str.before sep s) = false.
Proof.
  intros Hsep. induction s as [|a s IH]; cbn [Str.before].
  - assert (Hp : String.prefix sep "" = false) by now destruct sep.
    rewrite Hp. cbn [Str.contains]. now rewrite Hp.
  - destruct (String.prefix sep (String a s)) eqn:Hp.
    + cbn [Str.contains]. now destruct sep.
    + cbn [Str.contains]. rewrite IH, orb_false_r.
      destruct (String.prefix sep (String a (Str.before sep s))) eqn:Hp';
        [|reflexivity].
      apply prefix_app_iff in Hp' as (t & Ht).
      destruct (before_prefix sep s) as (u & Hu).
      assert (Hp2 : String.prefix sep (String a s) = true).
      { apply prefix_app_iff. exists (t +:+ u).
        rewrite <- string_app_assoc, <- Ht, string_app_cons.
        now rewrite <- Hu. }
      congruence.
Qed.

(** Reversal. *)
Lemma rev_app_spec (s acc : string) :
  String.rev_app s acc = String.rev s +:+ acc.
Proof.
  unfold String.rev. revert acc.
  induction s as [|a s IH]; intros acc; [reflexivity|].
  cbn. rewrite (IH (String a acc)), (IH (String a "")).
  now rewrite string_app_assoc.
Qed.

Lemma rev_cons (a : Ascii.ascii) (s : string) :
  String.rev (String a s) = String.rev s +:+ String a "".
Proof. unfold String.rev at 1. cbn. apply rev_app_spec. Qed.

Lemma rev_app_distr (s t : string) :
  String.rev (s +:+ t) = String.rev t +:+ String.rev s.
Proof.
  induction s as [|a s IH].
  - change (String.rev t = String.rev t +:+ "").
    now rewrite string_app_nil_r.
  - change (String.rev (String a (s +:+ t))
            = String.rev t +:+ String.rev (String a s)).
    now rewrite !rev_cons, IH, string_app_assoc.
Qed.

Lemma rev_involutive (s : string) : String.rev (String.rev s) = s.
Proof.
  induction s as [|a s IH]; [reflexivity|].
  now rewrite rev_cons, rev_app_distr, IH.
Qed.

Lemma rev_length (s : string) : String.length (String.rev s) = String.length s.
Proof.
  induction s as [|a s IH]; [reflexivity|].
  rewrite rev_cons, string_app_length, IH. cbn. lia.
Qed.

(** Stripping keeps a piece of the text. *)
Lemma drop_suffix (n : nat) (s : string) :
  exists y, s = y +:+ Str.drop n s
            /\ String.length y = Nat.min n (String.length s).
Proof.
  revert s. induction n as [|n IH]; intros s.
  - now exists "".
  - destruct s as [|a s]; [now exists ""|].
    destruct (IH s) as (y & Hy & Hlen). exists (String a y).
    rewrite string_app_cons. change (Str.drop (S n) (String a s)) with (Str.drop n s).
    split; [now rewrite <- Hy|cbn; now rewrite Hlen].
Qed.

Lemma drop_one_suffix (table : list string) (s s' : string) :
  Str.drop_one table s = Some s' -> exists y, s = y +:+ s'.
Proof.
  induction table as [|w table IH]; [discriminate|]. cbn.
  destruct (String.prefix w s); [|exact IH].
  intros [= <-]. destruct (drop_suffix (String.length w) s) as (y & Hy & _).
  now exists y.
Qed.

Lemma drop_leading_suffix (table : list string) (fuel : nat) (s : string) :
  exists y, s = y +:+ Str.drop_leading table fuel s.
Proof.
  revert s. induction fuel as [|fuel IH]; intros s; [now exists ""|].
  cbn. destruct (Str.drop_one table s) as [s'|] eqn:Hone; [|now exists ""].
  apply drop_one_suffix in Hone as (y & ->).
  destruct (IH s') as (y' & Hy'). exists (y +:+ y').
  now rewrite string_app_assoc, <- Hy'.
Qed.

Lemma strip_piece (s : string) :
  exists x y, s = x +:+ Str.strip s +:+ y.
Proof.
  unfold Str.strip, Str.lstrip, Str.rstrip.
  destruct (drop_leading_suffix Str.WHITESPACE (String.length s) s)
    as (x & Hx).
  set (t := Str.drop_leading Str.WHITESPACE (String.length s) s) in *.
  destruct (drop_leading_suffix (map String.rev Str.WHITESPACE)
              (String.length t) (String.rev t)) as (y & Hy).
  set (u := Str.drop_leading _ _ (String.rev t)) in *.
  exists x, (String.rev y).
  assert (Ht : t = String.rev u +:+ String.rev y)
    by now rewrite <- rev_app_distr, <- Hy, rev_involutive.
  now rewrite <- Ht.
Qed.

Lemma contains_strip (sub s : string) :
  Str.contains sub (Str.strip s) = true -> Str.contains sub s = true.
Proof.
  intros H. destruct (strip_piece s) as (x & y & Hs). rewrite Hs.
  now apply contains_app_r, contains_app_l.
Qed.

Lemma prefix_nil (s : string) : String.prefix "" s = true.
Proof. now destruct s. Qed.

Lemma drop_app (w r : string) : Str.drop (String.length w) (w +:+ r) = r.
Proof. induction w as [|a w IH]; [reflexivity|exact IH]. Qed.

(** What [drop_one] finds and what it does not. *)
Lemma drop_one_Some (table : list string) (s s' : string) :
  Str.drop_one table s = Some s' -> exists w, w ∈ table /\ s = w +:+ s'.
Proof.
  induction table as [|w table IH]; [discriminate|]. cbn [Str.drop_one].
  destruct (String.prefix w s) eqn:Hp.
  - intros [= <-]. exists w. split; [now left|]. now apply prefix_drop.
  - intros H. destruct (IH H) as (w' & Hin & Hs). exists w'.
    split; [now right|exact Hs].
Qed.

Lemma drop_one_None (table : list string) (s : string) :
  Str.drop_one table s = None
  <-> forall w, w ∈ table -> String.prefix w s = false.
Proof.
  induction table as [|w table IH]; cbn [Str.drop_one].
  - split; [|reflexivity]. intros _ w Hin. now apply elem_of_nil in Hin.
  - destruct (String.prefix w s) eqn:Hp.
    + split; [discriminate|]. intros H.
      rewrite (H w) in Hp; [discriminate|now left].
    + rewrite IH. split.
      * intros H w' [->|Hin]%elem_of_cons; auto.
      * intros H w' Hin. apply H. now right.
Qed.

Lemma drop_one_unique (table : list string) (w r : string) :
  w ∈ table ->
  (forall w', w' ∈ table -> String.prefix w' (w +:+ r) = true -> w' = w) ->
  Str.drop_one table (w +:+ r) = Some r.
Proof.
  intros Hin Huniq.
  destruct (Str.drop_one table (w +:+ r)) as [s'|] eqn:Hone.
  - apply drop_one_Some in Hone as Hw. destruct Hw as (w' & Hin' & Hs).
    assert (w' = w) as ->.
    { apply Huniq; [exact Hin'|]. apply prefix_app_iff. now exists s'. }
    apply String.app_inj in Hs. congruence.
  - rewrite drop_one_None in Hone. specialize (Hone w Hin).
    assert (String.prefix w (w +:+ r) = true) by (apply prefix_app_iff; eauto).
    congruence.
Qed.

Lemma drop_leading_fixed (table : list string) (fuel : nat) (s : string) :
  Str.drop_one table s = None -> Str.drop_leading table fuel s = s.
Proof. intros H. destruct fuel; [reflexivity|]. cbn. now rewrite H. Qed.

(** With fuel for every byte, nothing of the table is left in front. *)
Lemma drop_leading_done (table : list string) (fuel : nat) (s : string) :
  Forall (fun w => w <> "") table ->
  (String.length s <= fuel)%nat ->
  Str.drop_one table (Str.drop_leading table fuel s) = None.
Proof.
  intros Hne. rewrite Forall_forall in Hne.
  revert s. induction fuel as [|fuel IH]; intros s Hlen.
  - destruct s; [|cbn in Hlen; lia]. cbn [Str.drop_leading].
    apply drop_one_None. intros w Hin. specialize (Hne w Hin).
    now destruct w.
  - cbn [Str.drop_leading].
    destruct (Str.drop_one table s) as [s'|] eqn:Hone; [|exact Hone].
    apply IH. apply drop_one_Some in Hone as (w & Hin & ->).
    specialize (Hne w Hin).
    rewrite string_app_length in Hlen. destruct w; [contradiction|].
    cbn in Hlen. lia.
Qed.

(** The last byte of a concatenation. *)
Lemma app_snoc_inv (c : Ascii.ascii) (s1 s2 t : string) :
  s1 +:+ String c "" = s2 +:+ t ->
  (t = "" /\ s2 = s1 +:+ String c "")
  \/ exists t', t = t' +:+ String c "" /\ s1 = s2 +:+ t'.
Proof.
  revert s1. induction s2 as [|b s2 IH]; intros s1 H.
  - right. exists s1. split; [symmetry; exact H|reflexivity].
  - destruct s1 as [|a s1].
    + change (String c "" = String b (s2 +:+ t)) in H.
      injection H as -> H.
      destruct s2; [|discriminate H]. destruct t; [|discriminate H].
      now left.
    + rewrite !string_app_cons in H. injection H as -> H.
      destruct (IH s1 H) as [[-> ->]|(t' & -> & ->)].
      * now left.
      * right. now exists t'.
Qed.

(** The table of whitespace. *)
Lemma WHITESPACE_nonempty : Forall (fun w => w <> "") Str.WHITESPACE.
Proof.
  let t := eval vm_compute in Str.WHITESPACE in change Str.WHITESPACE with t.
  repeat constructor; discriminate.
Qed.

Lemma WHITESPACE_rev_nonempty :
  Forall (fun w => w <> "") (map String.rev Str.WHITESPACE).
Proof.
  let t := eval vm_compute in (map String.rev Str.WHITESPACE) in
  change (map String.rev Str.WHITESPACE) with t.
  repeat constructor; discriminate.
Qed.

Lemma space_in_WHITESPACE_rev : " " ∈ map String.rev Str.WHITESPACE.
Proof.
  let t := eval vm_compute in (map String.rev Str.WHITESPACE) in
  change (map String.rev Str.WHITESPACE) with t.
  do 9 right. left.
Qed.

(** Only the space itself starts with the byte of a space. *)
Lemma WHITESPACE_rev_space :
  Forall (fun w => forall r, String.prefix w (" " +:+ r) = true -> w = " ")
    (map String.rev Str.WHITESPACE).
Proof.
  let t := eval vm_compute in (map String.rev Str.WHITESPACE) in
  change (map String.rev Str.WHITESPACE) with t.
  repeat constructor; intros r H; apply prefix_app_iff in H as (t & Ht);
    first [discriminate Ht | reflexivity].
Qed.

Lemma rev_eq_nil (s : string) : String.rev s = "" -> s = "".
Proof.
  intros H. apply (f_equal String.length) in H. rewrite rev_length in H.
  now destruct s.
Qed.

(** A text is stripped when no whitespace starts or ends it. *)
Lemma drop_one_app_space (nm : string) :
  nm <> "" ->
  Str.drop_one Str.WHITESPACE nm = None ->
  Str.drop_one Str.WHITESPACE (nm +:+ " ") = None.
Proof.
  intros Hne. rewrite !drop_one_None. intros Hnm w Hin.
  destruct (String.prefix w (nm +:+ " ")) eqn:Hp; [|reflexivity].
  apply prefix_app_iff in Hp as (t & Ht).
  apply app_snoc_inv in Ht as [[-> ->]|(t' & -> & ->)].
  - exfalso. apply Hne, rev_eq_nil.
    pose proof WHITESPACE_rev_space as Hsp. rewrite Forall_forall in Hsp.
    assert (Hw : String.rev (nm +:+ " ") = " ").
    { apply (Hsp (String.rev (nm +:+ " "))
               (proj2 (list_elem_of_In _ _)
                  (in_map String.rev _ _ (proj1 (list_elem_of_In _ _) Hin)))
               (String.rev nm)).
      rewrite rev_app_distr. apply prefix_app_iff. exists "".
      now rewrite string_app_nil_r. }
    rewrite rev_app_distr in Hw. now injection Hw.
  - rewrite <- (Hnm w Hin). symmetry. apply prefix_app_iff. now exists t'.
Qed.

Lemma rstrip_app_space (s : string) : Str.rstrip (s +:+ " ") = Str.rstrip s.
Proof.
  unfold Str.rstrip. rewrite rev_app_distr, string_app_length, Nat.add_1_r.
  change (String.rev " ") with " ". cbn [Str.drop_leading].
  rewrite drop_one_unique; [reflexivity|apply space_in_WHITESPACE_rev|].
  pose proof WHITESPACE_rev_space as Hsp. rewrite Forall_forall in Hsp.
  intros w' Hin Hp. now apply (Hsp w' Hin (String.rev s)).
Qed.

Lemma strip_fixed_iff (u : string) :
  Str.strip u = u
  <-> Str.drop_one Str.WHITESPACE u = None
      /\ Str.drop_one (map String.rev Str.WHITESPACE) (String.rev u) = None.
Proof.
  split.
  - intros Hu. unfold Str.strip, Str.lstrip, Str.rstrip in Hu.
    destruct (drop_leading_suffix Str.WHITESPACE (String.length u) u)
      as (y & Hy).
    pose proof (drop_leading_done Str.WHITESPACE (String.length u) u
                  WHITESPACE_nonempty (le_n _)) as Hfront.
    set (t := Str.drop_leading Str.WHITESPACE (String.length u) u) in *.
    destruct (drop_leading_suffix (map String.rev Str.WHITESPACE)
                (String.length t) (String.rev t)) as (y' & Hy').
    pose proof (drop_leading_done (map String.rev Str.WHITESPACE)
                  (String.length t) (String.rev t) WHITESPACE_rev_nonempty)
      as Hback.
    rewrite rev_length in Hback. specialize (Hback (le_n _)).
    set (v := Str.drop_leading _ _ (String.rev t)) in *.
    assert (Ht : t = u +:+ String.rev y').
    { rewrite <- Hu, <- rev_app_distr, <- Hy'. now rewrite rev_involutive. }
    assert (Hlen : String.length y = 0%nat /\ String.length y' = 0%nat).
    { apply (f_equal String.length) in Hy.
      rewrite Ht, !string_app_length, rev_length in Hy. lia. }
    destruct Hlen as [Hl Hl']. destruct y; [|discriminate Hl].
    destruct y'; [|discriminate Hl'].
    change (u = t) in Hy. change (String.rev t = v) in Hy'.
    rewrite <- Hy in *. rewrite Hy'. auto.
  - intros [Hfront Hback]. unfold Str.strip, Str.lstrip, Str.rstrip.
    rewrite (drop_leading_fixed _ _ _ Hfront).
    rewrite (drop_leading_fixed _ _ _ Hback). apply rev_involutive.
Qed.

Lemma strip_app_space (nm : string) :
  Str.strip nm = nm -> Str.strip (nm +:+ " ") = nm.
Proof.
  intros Hnm. destruct nm as [|a nm]; [reflexivity|].
  pose proof Hnm as [Hfront Hback]%strip_fixed_iff.
  assert (Hne : String a nm <> "") by discriminate.
  unfold Str.strip at 1, Str.lstrip.
  rewrite (drop_leading_fixed _ _ _ (drop_one_app_space _ Hne Hfront)).
  rewrite rstrip_app_space.
  unfold Str.strip, Str.lstrip in Hnm.
  now rewrite (drop_leading_fixed _ _ _ Hfront) in Hnm.
Qed.

Lemma strip_idempotent (s : string) : Str.strip (Str.strip s) = Str.strip s.
Proof.
  apply strip_fixed_iff. unfold Str.strip, Str.lstrip, Str.rstrip.
  pose proof (drop_leading_done Str.WHITESPACE (String.length s) s
                WHITESPACE_nonempty (le_n _)) as Hfront.
  set (t := Str.drop_leading Str.WHITESPACE (String.length s) s) in *.
  destruct (drop_leading_suffix (map String.rev Str.WHITESPACE)
              (String.length t) (String.rev t)) as (y' & Hy').
  pose proof (drop_leading_done (map String.rev Str.WHITESPACE)
                (String.length t) (String.rev t) WHITESPACE_rev_nonempty)
    as Hback.
  rewrite rev_length in Hback. specialize (Hback (le_n _)).
  set (v := Str.drop_leading _ _ (String.rev t)) in *.
  split; [|now rewrite rev_involutive].
  assert (Ht : t = String.rev v +:+ String.rev y').
  { rewrite <- rev_app_distr, <- Hy'. now rewrite rev_involutive. }
  rewrite drop_one_None in *. intros w Hin.
  destruct (String.prefix w (String.rev v)) eqn:Hp; [|reflexivity].
  rewrite <- (Hfront w Hin), Ht. symmetry.
  apply prefix_app_iff in Hp as (x & ->). apply prefix_app_iff.
  exists (x +:+ String.rev y'). now rewrite string_app_assoc.
Qed.

(** The part before the first separator, step by step. *)
Lemma before_hit (sep s : string) :
  String.prefix sep s = true -> Str.before sep s = "".
Proof. intros H. destruct s; cbn [Str.before]; now rewrite H. Qed.

Lemma before_miss (sep : string) (a : Ascii.ascii) (s : string) :
  String.prefix sep (String a s) = false ->
  Str.before sep (String a s) = String a (Str.before sep s).
Proof. intros H. cbn [Str.before]. now rewrite H. Qed.

(** The em dash of the service buttons. *)
Lemma before_dash (nm rest : string) :
  Str.contains "—" nm = false ->
  Str.before "—" (nm +:+ " " +:+ "—" +:+ rest) = nm +:+ " ".
Proof.
  set (X := "—" +:+ rest).
  assert (HX : Str.before "—" X = "").
  { apply before_hit, prefix_app_iff. now exists rest. }
  induction nm as [|a nm IH]; intros Hnm.
  - change ("" +:+ " " +:+ X) with (" " +:+ X).
    rewrite string_app_cons. change ("" +:+ X) with X.
    rewrite before_miss, HX; [reflexivity|].
    destruct (String.prefix _ _) eqn:Hp; [|reflexivity].
    apply prefix_app_iff in Hp as (t & Ht). discriminate Ht.
  - cbn [Str.contains] in Hnm. apply orb_false_iff in Hnm as [Hp Hc].
    rewrite (string_app_cons a nm), (string_app_cons a nm).
    rewrite before_miss; [now rewrite (IH Hc)|].
    destruct (String.prefix "—" (String a (nm +:+ " " +:+ X)))
      eqn:Hp'; [exfalso|reflexivity].
    apply prefix_app_iff in Hp' as (t & Ht).
    cbn [String.append] in Ht. injection Ht as -> Ht.
    destruct nm as [|b nm]; [discriminate Ht|].
    rewrite string_app_cons in Ht. injection Ht as -> Ht.
    destruct nm as [|c nm]; [discriminate Ht|].
    rewrite string_app_cons in Ht. injection Ht as -> Ht.
    assert (H : String.prefix "—" ("—" +:+ nm) = true)
      by (apply prefix_app_iff; now exists nm).
    change (String.prefix "—" ("—" +:+ nm) = false) in Hp. congruence.
Qed.

(** ** Service buttons *)

Lemma parse_service_button_label (nm tail : string) :
  Str.contains "—" nm = false ->
  Str.strip nm = nm ->
  parse_service_button (nm +:+ " — " +:+ tail) = nm.
Proof.
  intros Hdash Hstrip. unfold parse_service_button.
  change (nm +:+ " — " +:+ tail) with (nm +:+ " " +:+ "—" +:+ (" " +:+ tail)).
  assert (Hc : Str.contains "—" (nm +:+ " " +:+ "—" +:+ (" " +:+ tail)) = true).
  { apply contains_iff. exists (nm +:+ " "), (" " +:+ tail).
    now rewrite !string_app_assoc. }
  rewrite Hc. cbn [negb]. rewrite before_dash by exact Hdash.
  now apply strip_app_space.
Qed.

Lemma parse_service_button_no_dash (text : string) :
  Str.contains "—" (parse_service_button text) = false.
Proof.
  unfold parse_service_button.
  destruct (Str.contains "—" text); cbn [negb]; [|reflexivity].
  destruct (Str.contains "—" (Str.strip (Str.before "—" text))) eqn:Hc;
    [|reflexivity].
  apply contains_strip in Hc.
  rewrite before_no_separator in Hc by discriminate. discriminate.
Qed.

Lemma parse_service_button_stripped (text : string) :
  Str.strip (parse_service_button text) = parse_service_button text.
Proof.
  unfold parse_service_button.
  destruct (Str.contains "—" text); cbn [negb]; [|reflexivity].
  apply strip_idempotent.
Qed.

(** ** The services sheet *)

Section ServicesSheet.

Variable str_lower : string -> string.

Local Abbreviation skipped :=
  (fun r : services_xlsx_row =>
     Str.strip (sx_name r) = "" \/ str_lower (Str.strip (sx_name r)) = "nan").

Local Abbreviation entry_of :=
  (fun (rows : list services_xlsx_row) (k : string) (s : service) =>
     Str.strip k = k /\ s.1.1.1 = k /\ k <> ""
     /\ str_lower k <> "nan"
     /\ (s.1.2 = "работа" \/ s.1.2 = "расходники")
     /\ s.2 <> ""
     /\ exists r, r ∈ rows /\ Str.strip (sx_name r) = k /\ sx_price r = s.1.1.2).

Lemma load_services_step_cases (S : gmap string service) (r : services_xlsx_row) :
  (skipped r /\ load_services_step str_lower S r = S)
  \/ exists s, load_services_step str_lower S r = <[Str.strip (sx_name r) := s]> S
               /\ entry_of [r] (Str.strip (sx_name r)) s.
Proof.
  cbv beta. unfold load_services_step.
  destruct (String.eqb_spec (Str.strip (sx_name r)) "") as [He|He].
  { left. split; [now left|reflexivity]. }
  destruct (String.eqb_spec (str_lower (Str.strip (sx_name r))) "nan") as [Hn|Hn].
  { left. split; [now right|reflexivity]. }
  right. cbn [orb]. eexists. split; [reflexivity|]. cbn [fst snd].
  split; [apply strip_idempotent|]. split; [reflexivity|].
  split; [exact He|]. split; [exact Hn|]. split; [|split].
  - destruct (String.eqb_spec (str_lower (Str.strip (sx_cat r))) "работа") as [->|];
      [now left|].
    destruct (String.eqb_spec (str_lower (Str.strip (sx_cat r))) "расходники")
      as [->|]; [now right|now left].
  - destruct (String.eqb_spec (Str.strip (sx_unit r)) ""); [discriminate|].
    destruct (String.eqb (str_lower (Str.strip (sx_unit r))) "nan");
      [discriminate|assumption].
  - exists r. split; [apply list_elem_of_singleton; reflexivity|]. now split.
Qed.

Lemma load_services_fold (rows : list services_xlsx_row) (S0 : gmap string service) :
  let S := fold_left (load_services_step str_lower) rows S0 in
  (forall k s, S !! k = Some s -> S0 !! k = Some s \/ entry_of rows k s)
  /\ (forall k, is_Some (S0 !! k) -> is_Some (S !! k))
  /\ (S = S0 \/ S <> ∅)
  /\ ((forall r, r ∈ rows -> skipped r) -> S = S0)
  /\ (forall r, r ∈ rows -> ~ skipped r -> S <> ∅).
Proof.
  cbv beta zeta.
  revert S0. induction rows as [|r rows IH]; intros S0; cbn [fold_left].
  { split; [intros k s Hk; now left|]. split; [tauto|]. split; [now left|].
    split; [reflexivity|]. intros r Hr. now apply elem_of_nil in Hr. }
  specialize (IH (load_services_step str_lower S0 r)).
  destruct IH as (IH1 & IH2 & IH3 & IH4 & IH5).
  set (S := fold_left _ rows _) in *.
  destruct (load_services_step_cases S0 r) as [[Hskip Hstep]|(s0 & Hstep & Hentry)];
    cbv beta in *; rewrite Hstep in *.
  - split; [|split; [|split; [|split]]].
    + intros k s Hk. destruct (IH1 k s Hk) as [H|H]; [now left|right].
      destruct H as (H1 & H2 & H3 & H4 & H5 & H6 & r' & Hr' & H7).
      repeat (split; [assumption|]). exists r'. split; [now right|exact H7].
    + exact IH2.
    + exact IH3.
    + intros Hall. apply IH4. intros r' Hr'. apply Hall. now right.
    + intros r' [->|Hr']%elem_of_cons Hns; [tauto|]. now apply IH5 with r'.
  - assert (Hne : S <> ∅).
    { intros Hempty.
      destruct (IH2 (Str.strip (sx_name r))) as [x Hx].
      - rewrite lookup_insert_eq. eauto.
      - rewrite Hempty, lookup_empty in Hx. discriminate. }
    split; [|split; [|split; [|split]]].
    + intros k s Hk. destruct (IH1 k s Hk) as [H|H].
      * apply lookup_insert_Some in H as [[<- <-]|[_ H]]; [right|now left].
        destruct Hentry as (H1 & H2 & H3 & H4 & H5 & H6 & r' & Hr' & H7).
        repeat (split; [assumption|]). exists r'.
        apply list_elem_of_singleton in Hr' as ->. split; [now left|exact H7].
      * right. destruct H as (H1 & H2 & H3 & H4 & H5 & H6 & r' & Hr' & H7).
        repeat (split; [assumption|]). exists r'. split; [now right|exact H7].
    + intros k Hk. apply IH2. destruct (decide (Str.strip (sx_name r) = k)) as [<-|Hd].
      * rewrite lookup_insert_eq. eauto.
      * now rewrite lookup_insert_ne.
    + now right.
    + intros Hall. exfalso.
      destruct Hentry as (_ & _ & H3 & H4 & _).
      destruct (Hall r) as [H|H]; [now left|congruence|congruence].
    + intros _ _ _. exact Hne.
Qed.

End ServicesSheet.

(** X7.  What [load_services_from_xlsx] leaves in the catalog: it raises
    exactly when every row has an empty name or the name [nan]; otherwise
    every entry is filed under its own name, which is stripped, not empty
    and not [nan], has the category [работа] or [расходники] and a unit
    that is not empty, and carries the price of a row of that name. *)
Theorem services_sheet_entries (str_lower : string -> string)
    (rows : list services_xlsx_row) :
  (load_services_from_xlsx str_lower rows = None
   <-> forall r, r ∈ rows ->
         Str.strip (sx_name r) = "" \/ str_lower (Str.strip (sx_name r)) = "nan")
  /\ forall S k nm price cat unit,
       load_services_from_xlsx str_lower rows = Some S ->
       S !! k = Some (nm, price, cat, unit) ->
       nm = k /\ Str.strip k = k /\ k <> "" /\ str_lower k <> "nan"
       /\ (cat = "работа" \/ cat = "расходники")
       /\ unit <> ""
       /\ exists r, r ∈ rows /\ Str.strip (sx_name r) = k /\ sx_price r = price.
Proof.
  pose proof (load_services_fold str_lower rows ∅) as H. cbv beta zeta in H.
  destruct H as (H1 & _ & _ & H4 & H5).
  unfold load_services_from_xlsx.
  destruct (decide (fold_left (load_services_step str_lower) rows ∅ = ∅))
    as [Hempty|Hne].
  - split; [|discriminate]. split; [|reflexivity]. intros _ r Hr.
    destruct (String.eqb_spec (Str.strip (sx_name r)) "") as [|He]; [now left|].
    destruct (String.eqb_spec (str_lower (Str.strip (sx_name r))) "nan")
      as [|Hn]; [now right|].
    exfalso. apply (H5 r Hr); [tauto|exact Hempty].
  - split.
    + split; [discriminate|]. intros Hall. now apply H4 in Hall.
    + intros S k nm price cat unit [= <-] Hk.
      destruct (H1 k _ Hk) as [H|H].
      * rewrite lookup_empty in H. discriminate.
      * cbn [fst snd] in H. tauto.
Qed.

(** X8.  Every button of the services keyboard selects its own service:
    for a catalog read by [load_services_from_xlsx], the text
    [services_keyboard] puts on the button of a service whose name holds
    no em dash is parsed by [parse_service_button] back to the key of
    that service, whatever the price and the unit look like. *)
Theorem service_button_round_trip (str_lower : string -> string)
    (format_g : float -> string) (rows : list services_xlsx_row)
    (S : gmap string service) (k : string) (s : service)
    (Hload : load_services_from_xlsx str_lower rows = Some S)
    (Hk : S !! k = Some s)
    (Hdash : Str.contains "—" k = false) :
  parse_service_button (service_button_label format_g s) = k.
Proof.
  pose proof (load_services_fold str_lower rows ∅) as H. cbv beta zeta in H.
  destruct H as (H1 & _).
  unfold load_services_from_xlsx in Hload.
  destruct (decide _); [discriminate|]. injection Hload as <-.
  destruct (H1 k s Hk) as [H|H]; [rewrite lookup_empty in H; discriminate|].
  destruct s as [[[nm price] cat] unit]. cbn [fst snd] in H.
  destruct H as (Hstrip & -> & _).
  unfold service_button_label.
  now apply parse_service_button_label.
Qed.

Lemma service_button_round_trip_witness :
  parse_service_button
    (service_button_label (fun _ => "5") ("Sticker", 5%float, "работа", "шт"))
  = "Sticker".
Proof.
  apply (service_button_round_trip ascii_lower (fun _ => "5") sample_services_rows
           (<["Sticker" := ("Sticker", 5%float, "работа", "шт")]> ∅)
           "Sticker").
  - vm_compute. reflexivity.
  - vm_compute. reflexivity.
  - vm_compute. reflexivity.
Defined.

(** ** The services of a line item *)

Lemma elem_of_removelast {A} (l : list A) (x : A) :
  x ∈ removelast l -> x ∈ l.
Proof.
  induction l as [|a l IH]; [trivial|]. cbn [removelast].
  destruct l as [|b l]; [intros H; now apply elem_of_nil in H|].
  intros [->|H]%elem_of_cons; [now left|right; now apply IH].
Qed.

Lemma NoDup_removelast {A} (l : list A) : NoDup l -> NoDup (removelast l).
Proof.
  induction l as [|a l IH]; [trivial|]. cbn [removelast].
  destruct l as [|b l]; [constructor|].
  intros [Hnotin Hnd]%NoDup_cons. apply NoDup_cons. split; [|now apply IH].
  intros Hin. apply Hnotin. now apply elem_of_removelast.
Qed.

Lemma services_cases (str_lower : string -> string)
    (SERVICES : gmap string service) (selected : list string)
    (text : string) (selected' : list string) :
  services str_lower SERVICES selected text = SvcSelected selected' ->
  selected' = removelast selected
  \/ selected' = selected
  \/ exists name,
       selected' = selected ++ [name]
       /\ name = parse_service_button (Str.strip text)
       /\ name <> "" /\ is_Some (SERVICES !! name) /\ name ∉ selected.
Proof.
  unfold services.
  destruct (_ || _); [discriminate|].
  destruct (String.eqb _ "Отменить последнюю услугу"); [intros [= <-]; now left|].
  destruct (String.eqb _ "Назад"); [discriminate|].
  destruct (String.eqb _ "Готово"); [discriminate|].
  destruct (String.eqb_spec (parse_service_button (Str.strip text)) "") as [|Hne];
    [discriminate|].
  cbn [orb]. destruct (bool_decide_reflect (is_Some (SERVICES !! parse_service_button (Str.strip text))))
    as [Hin|]; [|discriminate].
  cbn [negb]. destruct (bool_decide_reflect (parse_service_button (Str.strip text) ∈ selected))
    as [|Hnew].
  - intros [= <-]. right. now left.
  - intros [= <-]. right. right. eexists. repeat split; eauto.
Qed.

(** X9.  The services of a line item stay a list of distinct names of the
    catalog: whatever message the handler [services] receives, the list
    it stores has no name twice and only names the catalog prices,
    provided the list it started from was so. *)
Theorem services_selection_invariant (str_lower : string -> string)
    (SERVICES : gmap string service) (selected : list string)
    (text : string) (selected' : list string)
    (Hnodup : NoDup selected)
    (Hknown : forall name, name ∈ selected -> is_Some (SERVICES !! name))
    (Hstep : services str_lower SERVICES selected text = SvcSelected selected') :
  NoDup selected'
  /\ forall name, name ∈ selected' -> is_Some (SERVICES !! name).
Proof.
  destruct (services_cases _ _ _ _ _ Hstep)
    as [->|[->|(name & -> & _ & _ & Hin & Hnew)]].
  - split; [now apply NoDup_removelast|].
    intros name Hname. now apply Hknown, elem_of_removelast.
  - now split.
  - split.
    + apply NoDup_app. split; [exact Hnodup|]. split; [|apply NoDup_singleton].
      intros x Hx ->%list_elem_of_singleton. contradiction.
    + intros x [Hx| ->%list_elem_of_singleton]%elem_of_app; [now apply Hknown|exact Hin].
Qed.

Lemma services_selection_invariant_witness :
  NoDup ["A"; "B"]
  /\ forall name, name ∈ ["A"; "B"] -> is_Some (demo_services !! name).
Proof.
  apply (services_selection_invariant ascii_lower demo_services ["A"] "B — 0.2 ₽/pc").
  - apply NoDup_singleton.
  - intros name ->%list_elem_of_singleton. vm_compute. eauto.
  - vm_compute. reflexivity.
Defined.

(** X10.  A service whose name holds an em dash can never be selected: no
    message makes the handler [services] add such a name to the services
    of a line item, because [parse_service_button] cuts the text of the
    button at its first em dash. *)
Theorem services_never_selects_em_dash (str_lower : string -> string)
    (SERVICES : gmap string service) (selected : list string)
    (text : string) (selected' : list string) (name : string)
    (Hdash : Str.contains "—" name = true)
    (Hnew : name ∉ selected)
    (Hstep : services str_lower SERVICES selected text = SvcSelected selected') :
  name ∉ selected'.
Proof.
  destruct (services_cases _ _ _ _ _ Hstep)
    as [->|[->|(name' & -> & Hparse & _)]].
  - intros Hin. now apply Hnew, elem_of_removelast.
  - exact Hnew.
  - intros [Hin| ->%list_elem_of_singleton]%elem_of_app; [contradiction|].
    rewrite Hparse, parse_service_button_no_dash in Hdash. discriminate.
Qed.

Lemma services_never_selects_em_dash_witness :
  services ascii_lower demo_services [] "A — B — 5 ₽/pc" = SvcSelected ["A"]
  /\ "A — B" ∉ ["A"].
Proof.
  split; [vm_compute; reflexivity|].
  apply (services_never_selects_em_dash ascii_lower demo_services []
           "A — B — 5 ₽/pc" ["A"] "A — B").
  - vm_compute. reflexivity.
  - apply not_elem_of_nil.
  - vm_compute. reflexivity.
Defined.

(** ** The shipping sheets *)

Lemma setdefault_lookup (key key' : string) (value : float)
    (d : gmap string float) :
  setdefault key value d !! key'
  = match d !! key' with
    | Some v => Some v
    | None => if decide (key = key') then Some value else None
    end.
Proof.
  unfold setdefault. destruct (d !! key) as [v|] eqn:Hkey.
  - destruct (d !! key') as [v'|] eqn:Hkey'; [reflexivity|].
    destruct (decide (key = key')) as [->|]; congruence.
  - destruct (decide (key = key')) as [->|Hne].
    + now rewrite lookup_insert_eq, Hkey.
    + rewrite lookup_insert_ne by exact Hne. now destruct (d !! key').
Qed.

Section ShippingSheets.

Variable str_lower : string -> string.
Variable str_upper : string -> string.

Local Abbreviation up_code :=
  (fun r : shipping_xlsx_row => str_upper (Str.strip (sh_code r))).

Local Abbreviation is_pallet :=
  (fun r : shipping_xlsx_row =>
     Str.contains "PALLET" (up_code r) || Str.contains "ПАЛЛЕТ" (up_code r)).

Local Abbreviation is_entry :=
  (fun r : shipping_xlsx_row =>
     Str.contains "ENTRY" (up_code r) || Str.contains "ВЪЕЗД" (up_code r)).

Local Abbreviation ff_row :=
  (fun (r : shipping_xlsx_row) (w : string) =>
     Str.strip (sh_name r) = w /\ w <> ""
     /\ Str.strip (sh_code r) <> ""
     /\ str_lower (Str.strip (sh_code r)) <> "nan"
     /\ Str.startswith "FF_SHIP_BOX_" (up_code r) = true).

Local Abbreviation tk_row :=
  (fun (r : shipping_xlsx_row) (w : string) =>
     Str.strip (sh_name r) = w /\ w <> ""
     /\ Str.strip (sh_code r) <> ""
     /\ str_lower (Str.strip (sh_code r)) <> "nan"
     /\ up_code r <> "TO_TK_PER_BOX" /\ up_code r <> "TK_TO_TK_PER_BOX"
     /\ Str.startswith "TK_" (up_code r) = true).

Lemma load_ff_step_cases (FF : gmap string ff_rate) (C : gmap string float)
    (r : shipping_xlsx_row) :
  ((forall w, ~ ff_row r w)
   /\ (load_ff_step str_lower str_upper (FF, C) r).1 = FF)
  \/ (ff_row r (Str.strip (sh_name r))
      /\ load_ff_step str_lower str_upper (FF, C) r
         = (<[Str.strip (sh_name r) := {| ship_per_box := sh_price r |}]> FF, C)).
Proof.
  cbv beta. unfold load_ff_step.
  destruct (String.eqb_spec (Str.strip (sh_code r)) "") as [He|He].
  { left. split; [tauto|reflexivity]. }
  destruct (String.eqb_spec (str_lower (Str.strip (sh_code r))) "nan") as [Hn|Hn].
  { left. split; [tauto|reflexivity]. }
  cbn [orb].
  destruct (Str.startswith "FF_SHIP_BOX_" _) eqn:Hs.
  - destruct (String.eqb_spec (Str.strip (sh_name r)) "") as [Hnm|Hnm]; cbn [negb].
    + left. split; [|reflexivity]. intros w (<- & Hw & _). contradiction.
    + right. tauto.
  - left. split; [|reflexivity]. intros w (_ & _ & _ & _ & H). congruence.
Qed.

Lemma load_ff_fold (rows : list shipping_xlsx_row) (FF0 : gmap string ff_rate)
    (C0 : gmap string float) (w : string) :
  let FF := (fold_left (load_ff_step str_lower str_upper) rows (FF0, C0)).1 in
  (forall rate, FF !! w = Some rate ->
     FF0 !! w = Some rate
     \/ Str.strip w = w
        /\ exists r, r ∈ rows /\ ff_row r w /\ ship_per_box rate = sh_price r)
  /\ (is_Some (FF0 !! w) -> is_Some (FF !! w))
  /\ (forall r, r ∈ rows -> ff_row r w -> is_Some (FF !! w)).
Proof.
  cbv beta zeta. revert FF0 C0.
  induction rows as [|r rows IH]; intros FF0 C0; cbn [fold_left].
  { split; [intros rate H; now left|]. split; [tauto|].
    intros r Hr. now apply elem_of_nil in Hr. }
  destruct (load_ff_step str_lower str_upper (FF0, C0) r) as [FF1 C1] eqn:Hstep.
  destruct (IH FF1 C1) as (IH1 & IH2 & IH3).
  destruct (load_ff_step_cases FF0 C0 r) as [[Hno Heq]|[Hrow Heq]];
    cbv beta in *; rewrite Hstep in Heq; cbn [fst] in Heq.
  - subst FF1. split; [|split].
    + intros rate Hw. destruct (IH1 rate Hw) as [H|(Hs & r' & Hr' & H)];
        [now left|right].
      split; [exact Hs|]. exists r'. split; [now right|exact H].
    + exact IH2.
    + intros r' [->|Hr']%elem_of_cons Hrow'; [now apply Hno in Hrow'|].
      now apply IH3 with r'.
  - injection Heq as -> ->. split; [|split].
    + intros rate Hw. destruct (IH1 rate Hw) as [H|(Hs & r' & Hr' & H)].
      * apply lookup_insert_Some in H as [[<- <-]|[_ H]]; [right|now left].
        split; [apply strip_idempotent|]. exists r. split; [now left|].
        split; [exact Hrow|reflexivity].
      * right. split; [exact Hs|]. exists r'. split; [now right|exact H].
    + intros H0. apply IH2.
      destruct (decide (Str.strip (sh_name r) = w)) as [<-|Hne].
      * rewrite lookup_insert_eq. eauto.
      * now rewrite lookup_insert_ne.
    + intros r' [->|Hr']%elem_of_cons Hrow'; [|now apply IH3 with r'].
      apply IH2. destruct Hrow' as (<- & _). rewrite lookup_insert_eq. eauto.
Qed.

Lemma load_tk_step_cases (TK : gmap string tk_rate) (C : gmap string float)
    (r : shipping_xlsx_row) :
  ((forall w, ~ tk_row r w)
   /\ (load_tk_step str_lower str_upper (TK, C) r).1 = TK)
  \/ (tk_row r (Str.strip (sh_name r))
      /\ exists rec',
           (load_tk_step str_lower str_upper (TK, C) r).1
           = <[Str.strip (sh_name r) := rec']> TK
           /\ let rec := default tk_blank (TK !! Str.strip (sh_name r)) in
              (is_pallet r = true
               /\ rec' = {| to_warehouse_per_box := to_warehouse_per_box rec;
                            to_warehouse_per_pallet := Some (sh_price r);
                            entry_fee := entry_fee rec |})
              \/ (is_pallet r = false /\ is_entry r = true
                  /\ rec' = {| to_warehouse_per_box := to_warehouse_per_box rec;
                               to_warehouse_per_pallet := to_warehouse_per_pallet rec;
                               entry_fee := Some (sh_price r) |})
              \/ (is_pallet r = false /\ is_entry r = false
                  /\ rec' = {| to_warehouse_per_box := Some (sh_price r);
                               to_warehouse_per_pallet := to_warehouse_per_pallet rec;
                               entry_fee := entry_fee rec |})).
Proof.
  cbv beta zeta. unfold load_tk_step.
  destruct (String.eqb_spec (Str.strip (sh_code r)) "") as [He|He].
  { left. split; [tauto|reflexivity]. }
  destruct (String.eqb_spec (str_lower (Str.strip (sh_code r))) "nan") as [Hn|Hn].
  { left. split; [tauto|reflexivity]. }
  cbn [orb].
  destruct (String.eqb_spec (str_upper (Str.strip (sh_code r))) "TO_TK_PER_BOX")
    as [Hh1|Hh1].
  { left. split; [tauto|reflexivity]. }
  destruct (String.eqb_spec (str_upper (Str.strip (sh_code r))) "TK_TO_TK_PER_BOX")
    as [Hh2|Hh2].
  { left. split; [tauto|reflexivity]. }
  cbn [orb].
  destruct (Str.startswith "TK_" _) eqn:Hs; cbn [negb].
  2:{ left. split; [|reflexivity]. intros w (_ & _ & _ & _ & _ & _ & H). congruence. }
  destruct (String.eqb_spec (Str.strip (sh_name r)) "") as [Hnm|Hnm].
  { left. split; [|reflexivity]. intros w (<- & Hw & _). contradiction. }
  right. split; [tauto|].
  destruct (Str.contains "PALLET" _ || Str.contains "ПАЛЛЕТ" _) eqn:Hp.
  { eexists. split; [reflexivity|]. left. now split. }
  destruct (Str.contains "ENTRY" _ || Str.contains "ВЪЕЗД" _) eqn:Hen.
  { eexists. split; [reflexivity|]. right. left. now split. }
  eexists. split; [reflexivity|]. right. right. now split.
Qed.

Lemma load_tk_fold (rows : list shipping_xlsx_row) (TK0 : gmap string tk_rate)
    (C0 : gmap string float) (w : string) :
  let TK := (fold_left (load_tk_step str_lower str_upper) rows (TK0, C0)).1 in
  (forall rec, TK !! w = Some rec ->
     (TK0 !! w = None ->
      Str.strip w = w /\ exists r, r ∈ rows /\ tk_row r w)
     /\ ((forall rec0, TK0 !! w = Some rec0 -> is_Some (entry_fee rec0)) ->
         is_Some (entry_fee rec))
     /\ (forall v, to_warehouse_per_box rec = Some v ->
           (exists rec0, TK0 !! w = Some rec0 /\ to_warehouse_per_box rec0 = Some v)
           \/ exists r, r ∈ rows /\ tk_row r w
                        /\ is_pallet r = false /\ is_entry r = false
                        /\ sh_price r = v)
     /\ (forall v, to_warehouse_per_pallet rec = Some v ->
           (exists rec0, TK0 !! w = Some rec0
                         /\ to_warehouse_per_pallet rec0 = Some v)
           \/ exists r, r ∈ rows /\ tk_row r w /\ is_pallet r = true
                        /\ sh_price r = v))
  /\ (is_Some (TK0 !! w) -> is_Some (TK !! w))
  /\ (forall r, r ∈ rows -> tk_row r w -> is_Some (TK !! w)).
Proof.
  cbv beta zeta. revert TK0 C0.
  induction rows as [|r rows IH]; intros TK0 C0; cbn [fold_left].
  { cbn [fst]. split; [|split; [tauto|]].
    - intros rec Hw. split; [congruence|]. split; [eauto|].
      split; intros v Hv; left; eauto.
    - intros r Hr. now apply elem_of_nil in Hr. }
  destruct (load_tk_step str_lower str_upper (TK0, C0) r) as [TK1 C1] eqn:Hstep.
  destruct (IH TK1 C1) as (IH1 & IH2 & IH3).
  destruct (load_tk_step_cases TK0 C0 r) as [[Hno Heq]|[Hrow (rec' & Heq & Hkind)]];
    cbv beta zeta in *; rewrite Hstep in Heq; cbn [fst] in Heq; subst TK1.
  - split; [|split].
    + intros rec Hw. destruct (IH1 rec Hw) as (I1 & I2 & I3 & I4).
      split; [|split; [exact I2|split]].
      * intros Hnone. destruct (I1 Hnone) as (Hs & r' & Hr' & H).
        split; [exact Hs|]. exists r'. split; [now right|exact H].
      * intros v Hv. destruct (I3 v Hv) as [H|(r' & Hr' & H)]; [now left|right].
        exists r'. split; [now right|exact H].
      * intros v Hv. destruct (I4 v Hv) as [H|(r' & Hr' & H)]; [now left|right].
        exists r'. split; [now right|exact H].
    + exact IH2.
    + intros r' [->|Hr']%elem_of_cons Hrow'; [now apply Hno in Hrow'|].
      now apply IH3 with r'.
  - split; [|split].
    + intros rec Hw. destruct (IH1 rec Hw) as (I1 & I2 & I3 & I4).
      destruct (decide (Str.strip (sh_name r) = w)) as [Hsame|Hne].
      * assert (Hhere : Str.strip w = w /\ exists r0, r0 ∈ r :: rows /\ tk_row r0 w).
        { cbv beta. split; [rewrite <- Hsame; apply strip_idempotent|].
          exists r. split; [now left|]. rewrite <- Hsame. exact Hrow. }
        assert (Hroww : tk_row r w) by (cbv beta; rewrite <- Hsame; exact Hrow).
        cbv beta in Hroww.
        rewrite Hsame in Hkind, I2, I3, I4. rewrite lookup_insert_eq in I2, I3, I4.
        split; [intros _; exact Hhere|]. split; [|split].
        -- intros Hentry. apply I2. intros rec0 [= <-].
           destruct (TK0 !! w) as [rec00|] eqn:H0; cbn [default] in Hkind.
           ++ destruct Hkind as [[_ ->]|[(_ & _ & ->)|(_ & _ & ->)]];
                cbn [entry_fee]; eauto.
           ++ destruct Hkind as [[_ ->]|[(_ & _ & ->)|(_ & _ & ->)]];
                cbn [entry_fee tk_blank]; eauto.
        -- intros v Hv. destruct (I3 v Hv) as [(rec0 & [= <-] & Hb)|(r' & Hr' & H)].
           ++ destruct Hkind as [[Hp ->]|[(Hp & He & ->)|(Hp & He & ->)]];
                cbn [to_warehouse_per_box] in Hb.
              ** destruct (TK0 !! w) as [rec00|]; cbn [default] in Hb;
                   [left; eauto|discriminate].
              ** destruct (TK0 !! w) as [rec00|]; cbn [default] in Hb;
                   [left; eauto|discriminate].
              ** right. exists r. split; [now left|]. split; [exact Hroww|].
                 split; [exact Hp|]. split; [exact He|congruence].
           ++ right. exists r'. split; [now right|exact H].
        -- intros v Hv. destruct (I4 v Hv) as [(rec0 & [= <-] & Hb)|(r' & Hr' & H)].
           ++ destruct Hkind as [[Hp ->]|[(Hp & He & ->)|(Hp & He & ->)]];
                cbn [to_warehouse_per_pallet] in Hb.
              ** right. exists r. split; [now left|]. split; [exact Hroww|].
                 split; [exact Hp|congruence].
              ** destruct (TK0 !! w) as [rec00|]; cbn [default] in Hb;
                   [left; eauto|discriminate].
              ** destruct (TK0 !! w) as [rec00|]; cbn [default] in Hb;
                   [left; eauto|discriminate].
           ++ right. exists r'. split; [now right|exact H].
      * rewrite lookup_insert_ne in I1, I2, I3, I4 by exact Hne.
        split; [|split; [exact I2|split]].
        -- intros Hnone. destruct (I1 Hnone) as (Hs & r' & Hr' & H).
           split; [exact Hs|]. exists r'. split; [now right|exact H].
        -- intros v Hv. destruct (I3 v Hv) as [H|(r' & Hr' & H)]; [now left|right].
           exists r'. split; [now right|exact H].
        -- intros v Hv. destruct (I4 v Hv) as [H|(r' & Hr' & H)]; [now left|right].
           exists r'. split; [now right|exact H].
    + intros H0. apply IH2.
      destruct (decide (Str.strip (sh_name r) = w)) as [<-|Hne].
      * rewrite lookup_insert_eq. eauto.
      * now rewrite lookup_insert_ne.
    + intros r' [->|Hr']%elem_of_cons Hrow'; [|now apply IH3 with r'].
      apply IH2. destruct Hrow' as (<- & _). rewrite lookup_insert_eq. eauto.
Qed.

End ShippingSheets.

Lemma load_shipping_from_xlsx_eq (str_lower str_upper : string -> string)
    (ff_rows tk_rows : list shipping_xlsx_row) :
  load_shipping_from_xlsx str_lower str_upper ff_rows tk_rows
  = let ff := fold_left (load_ff_step str_lower str_upper) ff_rows (∅, ∅) in
    let tk :=
      fold_left (load_tk_step str_lower str_upper) tk_rows
        (∅, setdefault "TO_TK_PER_BOX" 100
              (setdefault "PALLET_THRESHOLD_BOXES" 10
                 (setdefault "STRETCH" 0 (setdefault "PALLET" 0 ff.2)))) in
    (ff.1, tk.1, tk.2).
Proof.
  unfold load_shipping_from_xlsx. cbv zeta.
  destruct (fold_left _ ff_rows _) as [FF C]. cbn [fst snd].
  now destruct (fold_left _ tk_rows _) as [TK C'].
Qed.

Lemma load_tk_fold_const (str_lower str_upper : string -> string)
    (rows : list shipping_xlsx_row) (TK0 : gmap string tk_rate)
    (C0 : gmap string float) (key : string) :
  let C := (fold_left (load_tk_step str_lower str_upper) rows (TK0, C0)).2 in
  (is_Some (C0 !! key) -> is_Some (C !! key))
  /\ (key <> "TO_TK_PER_BOX" -> C !! key = C0 !! key).
Proof.
  cbv zeta. revert TK0 C0.
  induction rows as [|r rows IH]; intros TK0 C0; cbn [fold_left]; [tauto|].
  destruct (load_tk_step str_lower str_upper (TK0, C0) r) as [TK1 C1] eqn:Hstep.
  destruct (IH TK1 C1) as [IH1 IH2].
  assert (HC : C1 = C0 \/ C1 = <["TO_TK_PER_BOX" := sh_price r]> C0).
  { revert Hstep. unfold load_tk_step.
    repeat match goal with
           | |- context [if ?b then _ else _] => destruct b
           end; intros [= <- <-]; tauto. }
  destruct HC as [->| ->]; [tauto|]. split.
  - intros H0. apply IH1.
    destruct (decide ("TO_TK_PER_BOX" = key)) as [<-|Hne].
    + rewrite lookup_insert_eq. eauto.
    + now rewrite lookup_insert_ne.
  - intros Hne. rewrite IH2 by exact Hne. now rewrite lookup_insert_ne.
Qed.

(** X11.  The constants [load_shipping_from_xlsx] returns always hold the
    pallet price, the stretch price, the pallet threshold and the hub rate
    per box, so the engine never falls back on the defaults written in
    its calls of [CONST.get]; and of the rows of the TK sheet only those
    of the hub rate change a constant. *)
Theorem shipping_sheet_constants (str_lower str_upper : string -> string)
    (ff_rows tk_rows : list shipping_xlsx_row) :
  (forall key,
     key ∈ ["PALLET"; "STRETCH"; "PALLET_THRESHOLD_BOXES"; "TO_TK_PER_BOX"] ->
     is_Some ((load_shipping_from_xlsx str_lower str_upper ff_rows tk_rows).2
              !! key)
     /\ forall d1 d2,
          CONST_get (load_shipping_from_xlsx str_lower str_upper ff_rows tk_rows).2
            key d1
          = CONST_get (load_shipping_from_xlsx str_lower str_upper ff_rows tk_rows).2
              key d2)
  /\ (forall key,
        key <> "TO_TK_PER_BOX" ->
        (load_shipping_from_xlsx str_lower str_upper ff_rows tk_rows).2 !! key
        = (load_shipping_from_xlsx str_lower str_upper ff_rows []).2 !! key).
Proof.
  rewrite !load_shipping_from_xlsx_eq. cbv zeta. cbn [snd fold_left].
  set (C1 := (fold_left _ ff_rows _).2).
  set (C0 := setdefault "TO_TK_PER_BOX" _ _).
  split.
  - intros key Hkey.
    assert (H0 : is_Some (C0 !! key)).
    { unfold C0. rewrite !setdefault_lookup.
      destruct (C1 !! key) as [v|]; [eauto|].
      repeat (apply elem_of_cons in Hkey as [->|Hkey]);
        [..|now apply elem_of_nil in Hkey]; vm_compute; eauto. }
    destruct (load_tk_fold_const str_lower str_upper tk_rows ∅ C0 key)
      as [Hsome _]. cbv zeta in Hsome.
    apply Hsome in H0 as [v Hv]. split; [eauto|].
    intros d1 d2. unfold CONST_get. now rewrite Hv.
  - intros key Hne.
    now destruct (load_tk_fold_const str_lower str_upper tk_rows ∅ C0 key)
      as [_ ->].
Qed.

(** X12.  The warehouses [load_shipping_from_xlsx] returns are the names
    of the warehouse rows and nothing else: a name is in the FF table
    exactly when a row of the FF sheet with a code [FF_SHIP_BOX_...]
    bears it, and in the TK table exactly when a row of the TK sheet with
    a code [TK_...] other than the hub constant bears it; a constant is
    never offered as a warehouse, and every name offered is stripped and
    not empty. *)
Theorem shipping_sheet_warehouses (str_lower str_upper : string -> string)
    (ff_rows tk_rows : list shipping_xlsx_row) (w : string) :
  (is_Some ((load_shipping_from_xlsx str_lower str_upper ff_rows tk_rows).1.1
            !! w)
   <-> exists r, r ∈ ff_rows
         /\ Str.strip (sh_name r) = w /\ w <> ""
         /\ Str.strip (sh_code r) <> ""
         /\ str_lower (Str.strip (sh_code r)) <> "nan"
         /\ Str.startswith "FF_SHIP_BOX_" (str_upper (Str.strip (sh_code r)))
            = true)
  /\ (is_Some ((load_shipping_from_xlsx str_lower str_upper ff_rows tk_rows).1.2
               !! w)
      <-> exists r, r ∈ tk_rows
            /\ Str.strip (sh_name r) = w /\ w <> ""
            /\ Str.strip (sh_code r) <> ""
            /\ str_lower (Str.strip (sh_code r)) <> "nan"
            /\ str_upper (Str.strip (sh_code r)) <> "TO_TK_PER_BOX"
            /\ str_upper (Str.strip (sh_code r)) <> "TK_TO_TK_PER_BOX"
            /\ Str.startswith "TK_" (str_upper (Str.strip (sh_code r))) = true)
  /\ (w ∈ WAREHOUSE_NAMES
            (load_shipping_from_xlsx str_lower str_upper ff_rows tk_rows).1.1
            (load_shipping_from_xlsx str_lower str_upper ff_rows tk_rows).1.2 ->
      Str.strip w = w /\ w <> "").
Proof.
  rewrite load_shipping_from_xlsx_eq. cbv zeta. cbn [fst snd].
  set (C0 := setdefault "TO_TK_PER_BOX" _ _).
  pose proof (load_ff_fold str_lower str_upper ff_rows ∅ ∅ w) as Hff.
  pose proof (load_tk_fold str_lower str_upper tk_rows ∅ C0 w) as Htk.
  cbv beta zeta in Hff, Htk.
  destruct Hff as (F1 & _ & F3). destruct Htk as (T1 & _ & T3).
  assert (Hff : is_Some
                  ((fold_left (load_ff_step str_lower str_upper) ff_rows (∅, ∅)).1
                   !! w)
                -> Str.strip w = w
                   /\ exists r, r ∈ ff_rows
                        /\ Str.strip (sh_name r) = w /\ w <> ""
                        /\ Str.strip (sh_code r) <> ""
                        /\ str_lower (Str.strip (sh_code r)) <> "nan"
                        /\ Str.startswith "FF_SHIP_BOX_"
                             (str_upper (Str.strip (sh_code r))) = true).
  { intros [rate Hrate]. destruct (F1 rate Hrate) as [H|(Hs & r & Hr & H & _)].
    - rewrite lookup_empty in H. discriminate.
    - split; [exact Hs|]. exists r. tauto. }
  assert (Htk : is_Some
                  ((fold_left (load_tk_step str_lower str_upper) tk_rows (∅, C0)).1
                   !! w)
                -> Str.strip w = w
                   /\ exists r, r ∈ tk_rows
                        /\ Str.strip (sh_name r) = w /\ w <> ""
                        /\ Str.strip (sh_code r) <> ""
                        /\ str_lower (Str.strip (sh_code r)) <> "nan"
                        /\ str_upper (Str.strip (sh_code r)) <> "TO_TK_PER_BOX"
                        /\ str_upper (Str.strip (sh_code r)) <> "TK_TO_TK_PER_BOX"
                        /\ Str.startswith "TK_"
                             (str_upper (Str.strip (sh_code r))) = true).
  { intros [rec Hrec]. destruct (T1 rec Hrec) as (H & _).
    destruct (H (lookup_empty w)) as (Hs & r & Hr & Hrow).
    split; [exact Hs|]. exists r. tauto. }
  split; [|split].
  - split; [intros H; now apply Hff in H|].
    intros (r & Hr & H). now apply (F3 r Hr).
  - split; [intros H; now apply Htk in H|].
    intros (r & Hr & H). now apply (T3 r Hr).
  - intros [H|H]%elem_of_WAREHOUSE_NAMES.
    + destruct (Hff H) as (Hs & r & _ & _ & Hw & _). now split.
    + destruct (Htk H) as (Hs & r & _ & _ & Hw & _). now split.
Qed.

(** X13.  The rates of a warehouse of the TK table come from its rows: the
    entry fee is always a number (zero when no row gives one), a rate per
    box is present only when a [TK_...] row of that name gives it, with
    neither [PALLET] nor [ENTRY] in its code, and a rate per pallet only
    when a row with [PALLET] in its code gives it. *)
Theorem shipping_sheet_rates (str_lower str_upper : string -> string)
    (ff_rows tk_rows : list shipping_xlsx_row) (w : string) (rec : tk_rate)
    (Hrec : (load_shipping_from_xlsx str_lower str_upper ff_rows tk_rows).1.2
            !! w = Some rec) :
  is_Some (entry_fee rec)
  /\ (forall v,
        to_warehouse_per_box rec = Some v ->
        exists r, r ∈ tk_rows
          /\ Str.strip (sh_name r) = w
          /\ Str.startswith "TK_" (str_upper (Str.strip (sh_code r))) = true
          /\ Str.contains "PALLET" (str_upper (Str.strip (sh_code r)))
             || Str.contains "ПАЛЛЕТ" (str_upper (Str.strip (sh_code r))) = false
          /\ Str.contains "ENTRY" (str_upper (Str.strip (sh_code r)))
             || Str.contains "ВЪЕЗД" (str_upper (Str.strip (sh_code r))) = false
          /\ sh_price r = v)
  /\ (forall v,
        to_warehouse_per_pallet rec = Some v ->
        exists r, r ∈ tk_rows
          /\ Str.strip (sh_name r) = w
          /\ Str.startswith "TK_" (str_upper (Str.strip (sh_code r))) = true
          /\ Str.contains "PALLET" (str_upper (Str.strip (sh_code r)))
             || Str.contains "ПАЛЛЕТ" (str_upper (Str.strip (sh_code r))) = true
          /\ sh_price r = v).
Proof.
  revert Hrec. rewrite load_shipping_from_xlsx_eq. cbv zeta. cbn [fst snd].
  set (C0 := setdefault "TO_TK_PER_BOX" _ _). intros Hrec.
  pose proof (load_tk_fold str_lower str_upper tk_rows ∅ C0 w) as Htk.
  cbv beta zeta in Htk. destruct Htk as (T1 & _).
  destruct (T1 rec Hrec) as (_ & T2 & T3 & T4).
  split; [|split].
  - apply T2. intros rec0 H. rewrite lookup_empty in H. discriminate.
  - intros v Hv. destruct (T3 v Hv) as [(rec0 & H & _)|(r & Hr & Hrow & H)].
    + rewrite lookup_empty in H. discriminate.
    + exists r. tauto.
  - intros v Hv. destruct (T4 v Hv) as [(rec0 & H & _)|(r & Hr & Hrow & H)].
    + rewrite lookup_empty in H. discriminate.
    + exists r. tauto.
Qed.

Lemma shipping_sheet_rates_witness :
  is_Some (Some 0%float)
  /\ (forall v,
        Some 30%float = Some v ->
        exists r, r ∈ sample_tk_rows
          /\ Str.strip (sh_name r) = "Tula"
          /\ Str.startswith "TK_" (ascii_upper (Str.strip (sh_code r))) = true
          /\ Str.contains "PALLET" (ascii_upper (Str.strip (sh_code r)))
             || Str.contains "ПАЛЛЕТ" (ascii_upper (Str.strip (sh_code r))) = false
          /\ Str.contains "ENTRY" (ascii_upper (Str.strip (sh_code r)))
             || Str.contains "ВЪЕЗД" (ascii_upper (Str.strip (sh_code r))) = false
          /\ sh_price r = v)
  /\ (forall v,
        Some 500%float = Some v ->
        exists r, r ∈ sample_tk_rows
          /\ Str.strip (sh_name r) = "Tula"
          /\ Str.startswith "TK_" (ascii_upper (Str.strip (sh_code r))) = true
          /\ Str.contains "PALLET" (ascii_upper (Str.strip (sh_code r)))
             || Str.contains "ПАЛЛЕТ" (ascii_upper (Str.strip (sh_code r))) = true
          /\ sh_price r = v).
Proof.
  apply (shipping_sheet_rates ascii_lower ascii_upper sample_ff_rows sample_tk_rows
           "Tula"
           {| to_warehouse_per_box := Some 30%float;
              to_warehouse_per_pallet := Some 500%float;
              entry_fee := Some 0%float |}).
  vm_compute. reflexivity.
Defined.

(** X14.  A warehouse of the TK sheet whose rows are all pallet or entry
    rows is offered to the customer but has no rate per box: shipping a
    party without pallets to it raises the missing-rate error, and so
    does the report of every party below the pallet threshold that goes
    there. *)
Theorem warehouse_without_box_rate (str_lower str_upper : string -> string)
    (ff_rows tk_rows : list shipping_xlsx_row) (w : string)
    (Hin : is_Some
             ((load_shipping_from_xlsx str_lower str_upper ff_rows tk_rows).1.2
              !! w))
    (Hrows : forall r, r ∈ tk_rows -> Str.strip (sh_name r) = w ->
               (Str.contains "PALLET" (str_upper (Str.strip (sh_code r)))
                || Str.contains "ПАЛЛЕТ" (str_upper (Str.strip (sh_code r))))
               || (Str.contains "ENTRY" (str_upper (Str.strip (sh_code r)))
                   || Str.contains "ВЪЕЗД" (str_upper (Str.strip (sh_code r))))
               = true) :
  w ∈ WAREHOUSE_NAMES
        (load_shipping_from_xlsx str_lower str_upper ff_rows tk_rows).1.1
        (load_shipping_from_xlsx str_lower str_upper ff_rows tk_rows).1.2
  /\ (forall n p f,
        Py.float_of_int n = Ok f -> (p <= 0)%Z ->
        party_shipping_cost
          (load_shipping_from_xlsx str_lower str_upper ff_rows tk_rows).1.1
          (load_shipping_from_xlsx str_lower str_upper ff_rows tk_rows).1.2
          (load_shipping_from_xlsx str_lower str_upper ff_rows tk_rows).2
          w n p
        = Raise (RuntimeError NoRateToWarehouse))
  /\ (forall SERVICES data calcs m pallets_cost stretch f,
        warehouse data = w ->
        all_sku_costs SERVICES (box_dims data) (use_client_boxes data) (skus data)
        = Ok calcs ->
        party_palletization
          (load_shipping_from_xlsx str_lower str_upper ff_rows tk_rows).2
          (sum_boxes calcs) (box_dims data)
        = Ok (0%Z, m, pallets_cost, stretch) ->
        Py.float_of_int (sum_boxes calcs) = Ok f ->
        format_report SERVICES
          (load_shipping_from_xlsx str_lower str_upper ff_rows tk_rows).1.1
          (load_shipping_from_xlsx str_lower str_upper ff_rows tk_rows).1.2
          (load_shipping_from_xlsx str_lower str_upper ff_rows tk_rows).2
          data
        = Raise (RuntimeError NoRateToWarehouse)).
Proof.
  set (FF := (load_shipping_from_xlsx str_lower str_upper ff_rows tk_rows).1.1).
  set (C := (load_shipping_from_xlsx str_lower str_upper ff_rows tk_rows).2).
  assert (Hbox : exists rec,
            (load_shipping_from_xlsx str_lower str_upper ff_rows tk_rows).1.2 !! w
            = Some rec /\ to_warehouse_per_box rec = None).
  { destruct Hin as [rec Hrec]. exists rec. split; [exact Hrec|].
    revert Hrec. rewrite load_shipping_from_xlsx_eq. cbv zeta. cbn [fst snd].
    set (C0 := setdefault "TO_TK_PER_BOX" _ _). intros Hrec.
    pose proof (load_tk_fold str_lower str_upper tk_rows ∅ C0 w) as Htk.
    cbv beta zeta in Htk. destruct Htk as (T1 & _).
    destruct (T1 rec Hrec) as (_ & _ & T3 & _).
    destruct (to_warehouse_per_box rec) as [v|] eqn:Hv; [|reflexivity].
    destruct (T3 v eq_refl) as [(rec0 & H & _)|(r & Hr & Hrow & Hp & He & _)].
    - rewrite lookup_empty in H. discriminate.
    - destruct Hrow as (Hname & _). specialize (Hrows r Hr Hname).
      rewrite Hp, He in Hrows. discriminate. }
  destruct Hbox as (rec & Hrec & Hnone).
  set (TK := (load_shipping_from_xlsx str_lower str_upper ff_rows tk_rows).1.2)
    in *.
  assert (Hship : forall n p f,
            Py.float_of_int n = Ok f -> (p <= 0)%Z ->
            party_shipping_cost FF TK C w n p
            = Raise (RuntimeError NoRateToWarehouse)).
  { intros n p f Hn Hp.
    rewrite (party_shipping_cost_tk FF TK C w rec n p Hrec).
    unfold tk_shipping_formula, warehouse_leg, Py.int_mul_float.
    rewrite Hn, Hnone. unfold mbind, result_bind.
    apply Z.ltb_ge in Hp. rewrite Hp.
    now destruct (to_warehouse_per_pallet rec). }
  split; [|split].
  - apply elem_of_WAREHOUSE_NAMES. right. exact Hin.
  - exact Hship.
  - intros SERVICES data calcs m pc sc f Hw Hcalcs Hpal Hf.
    rewrite format_report_eq, Hcalcs. unfold mbind at 1, result_bind at 1.
    rewrite Hpal. unfold mbind at 1, result_bind at 1.
    rewrite Hw, (Hship _ 0%Z f Hf (Z.le_refl 0)). reflexivity.
Qed.

Lemma warehouse_without_box_rate_witness :
  "Kazan" ∈ WAREHOUSE_NAMES
    (load_shipping_from_xlsx ascii_lower ascii_upper sample_ff_rows
       sample_tk_rows).1.1
    (load_shipping_from_xlsx ascii_lower ascii_upper sample_ff_rows
       sample_tk_rows).1.2
  /\ party_shipping_cost
       (load_shipping_from_xlsx ascii_lower ascii_upper sample_ff_rows
          sample_tk_rows).1.1
       (load_shipping_from_xlsx ascii_lower ascii_upper sample_ff_rows
          sample_tk_rows).1.2
       (load_shipping_from_xlsx ascii_lower ascii_upper sample_ff_rows
          sample_tk_rows).2
       "Kazan" 5 0
     = Raise (RuntimeError NoRateToWarehouse).
Proof.
  assert (Hin : is_Some
            ((load_shipping_from_xlsx ascii_lower ascii_upper sample_ff_rows
                sample_tk_rows).1.2 !! "Kazan")).
  { vm_compute. eauto. }
  assert (Hrows : forall r, r ∈ sample_tk_rows -> Str.strip (sh_name r) = "Kazan" ->
            (Str.contains "PALLET" (ascii_upper (Str.strip (sh_code r)))
             || Str.contains "ПАЛЛЕТ" (ascii_upper (Str.strip (sh_code r))))
            || (Str.contains "ENTRY" (ascii_upper (Str.strip (sh_code r)))
                || Str.contains "ВЪЕЗД" (ascii_upper (Str.strip (sh_code r))))
            = true).
  { intros r Hr.
    repeat (apply elem_of_cons in Hr as [->|Hr]);
      [..|now apply elem_of_nil in Hr]; vm_compute; congruence. }
  destruct (warehouse_without_box_rate ascii_lower ascii_upper sample_ff_rows
              sample_tk_rows "Kazan" Hin Hrows) as (H1 & H2 & _).
  split; [exact H1|].
  apply (H2 5%Z 0%Z 5%float); [reflexivity|lia].
Defined.

(** ** Dimensions the dialogue accepts *)

Lemma not_leb_zero_cases (x : float) :
  (x <=? 0)%float = false -> (0 <? x)%float = true \/ (x =? x)%float = false.
Proof.
  rewrite FloatAxioms.leb_spec, FloatAxioms.ltb_spec, FloatAxioms.eqb_spec,
    Prim2SF_zero.
  unfold SFleb, SFltb, SFeqb, SFcompare.
  destruct (Prim2SF x) as [s|s| |s m e]; try destruct s;
    first [discriminate | now left | now right].
Qed.

Lemma get_template_dimensions_cases (str_lower : string -> string)
    (name : string) (d : dims) :
  get_template_dimensions str_lower name = Some d ->
  d = (10, 10, 5)%float \/ d = (25, 20, 5)%float \/ d = (30, 40, 5)%float.
Proof.
  unfold get_template_dimensions.
  destruct (Str.contains "мал" _); [intros [= <-]; tauto|].
  destruct (Str.contains "сред" _); [intros [= <-]; tauto|].
  destruct (Str.contains "круп" _); [intros [= <-]; tauto|discriminate].
Qed.

Lemma WAREHOUSE_BOXES_cases (key : string) (box : dims) :
  WAREHOUSE_BOXES !! key = Some box ->
  (key = "60×40×40" /\ box = (60, 40, 40)%float)
  \/ (key = "40×30×30" /\ box = (40, 30, 30)%float).
Proof.
  unfold WAREHOUSE_BOXES.
  intros [[<- <-]|[_ H]]%lookup_insert_Some; [now left|].
  apply lookup_insert_Some in H as [[<- <-]|[_ H]]; [now right|].
  rewrite lookup_empty in H. discriminate.
Qed.

(** X15.  The typical sizes in the cartons of the warehouse: the large
    size 30×40×5 in the carton 40×30×30 is always packed as oversize, one
    item to a box, because its width exceeds that of the carton; every
    other pair of a typical size and a warehouse carton is packed by
    volume, with at least one item to a box. *)
Theorem template_sizes_in_warehouse_cartons (str_lower : string -> string)
    (name : string) (d : dims) (key : string) (box : dims)
    (Hd : get_template_dimensions str_lower name = Some d)
    (Hbox : WAREHOUSE_BOXES !! key = Some box) :
  (d = (30, 40, 5)%float /\ key = "40×30×30" ->
   forall q,
     calculate_boxes_for_item q d box
     = (c ← Py.math_ceil q; Ok (c, true, 1%float)))
  /\ (~ (d = (30, 40, 5)%float /\ key = "40×30×30") ->
      (1 <=? vol box / vol d)%float = true
      /\ forall q,
           calculate_boxes_for_item q d box
           = (b ← box_count_formula q (vol box / vol d)%float;
              Ok (b, false, (vol box / vol d)%float))).
Proof.
  apply get_template_dimensions_cases in Hd.
  apply WAREHOUSE_BOXES_cases in Hbox.
  destruct Hd as [->|[->| ->]], Hbox as [[-> ->]|[-> ->]];
    (split;
     [ intros [H1 H2];
       first [ discriminate H2
             | apply (f_equal (fun x : dims => (x.1.1 =? 30)%float)) in H1;
               vm_compute in H1; discriminate H1
             | intros q; rewrite calculate_boxes_for_item_eq; reflexivity ]
     | intros Hn;
       first [ exfalso; apply Hn; split; reflexivity
             | split; [vm_compute; reflexivity|];
               intros q; rewrite calculate_boxes_for_item_eq; reflexivity ] ]).
Qed.

Lemma template_sizes_in_warehouse_cartons_witness :
  get_template_dimensions ascii_lower "крупный" = Some (30, 40, 5)%float
  /\ calculate_boxes_for_item 12 (30, 40, 5)%float (40, 30, 30)%float
     = Ok (12%Z, true, 1%float).
Proof.
  assert (Hd : get_template_dimensions ascii_lower "крупный"
               = Some (30, 40, 5)%float) by (vm_compute; reflexivity).
  assert (Hbox : WAREHOUSE_BOXES !! "40×30×30" = Some (40, 30, 30)%float)
    by (vm_compute; reflexivity).
  split; [exact Hd|].
  destruct (template_sizes_in_warehouse_cartons ascii_lower "крупный"
              (30, 40, 5)%float "40×30×30" (40, 30, 30)%float Hd Hbox)
    as [Hlarge _].
  rewrite Hlarge; [reflexivity|split; reflexivity].
Defined.

(** X16.  The dimensions the dialogue accepts from a text: none of the
    three numbers [parse_dimensions] returns is zero or negative, but a
    number that is not a number passes the check [<= 0]; when none of the
    three is NaN, all are positive. *)
Theorem parse_dimensions_accepts (str_lower : string -> string)
    (py_float : string -> option float) (text : string) (l w h : float)
    (Hparse : parse_dimensions str_lower py_float text = Some (l, w, h)) :
  ((0 <? l)%float = true \/ (l =? l)%float = false)
  /\ ((0 <? w)%float = true \/ (w =? w)%float = false)
  /\ ((0 <? h)%float = true \/ (h =? h)%float = false)
  /\ ((l =? l)%float && (w =? w)%float && (h =? h)%float = true ->
      positive_dims (l, w, h) = true).
Proof.
  revert Hparse. unfold parse_dimensions.
  destruct (if Str.contains "x" _ then _ else _) as [|pl [|pw [|ph [|]]]];
    try discriminate.
  destruct (py_float pl) as [l'|]; [|discriminate].
  destruct (py_float pw) as [w'|]; [|discriminate].
  destruct (py_float ph) as [h'|]; [|discriminate].
  destruct (l' <=? 0)%float eqn:Hl; [discriminate|].
  destruct (w' <=? 0)%float eqn:Hw; [discriminate|].
  destruct (h' <=? 0)%float eqn:Hh; [discriminate|].
  intros [= <- <- <-].
  apply not_leb_zero_cases in Hl, Hw, Hh.
  repeat (split; [assumption|]).
  unfold positive_dims. intros [[Hl' Hw']%andb_prop Hh']%andb_prop.
  destruct Hl as [->|Hl]; [|congruence].
  destruct Hw as [->|Hw]; [|congruence].
  destruct Hh as [->|Hh]; [|congruence].
  reflexivity.
Qed.

Lemma parse_dimensions_accepts_witness :
  parse_dimensions ascii_lower sample_float "nan x 60 x 40"
  = Some (nan, 60, 40)%float
  /\ ((0 <? nan)%float = true \/ (nan =? nan)%float = false).
Proof.
  assert (Hparse : parse_dimensions ascii_lower sample_float "nan x 60 x 40"
                   = Some (nan, 60, 40)%float) by (vm_compute; reflexivity).
  split; [exact Hparse|].
  exact (proj1 (parse_dimensions_accepts ascii_lower sample_float
                  "nan x 60 x 40" nan 60 40 Hparse)).
Defined.
